(** * Banking system: accounts, transactions and the bank registry

    A shallow embedding of [src/banking_system.cpp] (classes [Transaction],
    [Account], [SavingsAccount], [CurrentAccount], [Bank] and
    [BankingSystem]) together with the properties its specification states
    about them.

    Modelling conventions.
    - A [double] is a binary64 floating-point number, Rocq's primitive
      [float]: [+], [-], [*], [/] round to nearest (ties to even) and the
      comparisons [<?], [<=?] answer [false] whenever an operand is NaN.
      Infinities, signed zeros and NaN are values like any other.  Every
      operation of the source is one rounded operation (no wider
      intermediate format, no fused multiply-add).  A decimal constant of
      the source ([0.04]) is the double nearest to it.
    - The exact value of a finite [double] as a rational number is [exact];
      it serves to compare what the code computes with exact arithmetic.
    - An [int] is an integer of 32 bits.
    - A method that mutates [*this] is a function from the object before the
      call to the object after it; what it returns and what it writes to
      [std::cout] come back next to the new object.
    - Each statement writing to [std::cout] is one [Msg]; the layout of the
      text (precision, separators) is not modelled.
    - The time stamp of a [Transaction] is read from the wall clock and is
      only ever displayed; the record is modelled without it.
    - [std::vector<std::unique_ptr<Account>>] is a list of [AccountObj], the
      constructor telling the dynamic type; a pointer into the vector is the
      position of the element. *)

From Stdlib Require Import Floats QArith ZArith String List Bool Arith Lia.
Import ListNotations.

Open Scope string_scope.
Open Scope list_scope.
Open Scope float_scope.

#[local] Set Warnings "-inexact-float".

(** ** Exact values *)

(** The rational number a finite [double] stands for; [None] for an
    infinity or NaN. *)
Definition exact (x : float) : option Q :=
  match Prim2SF x with
  | S754_zero _ => Some 0%Q
  | S754_finite s m e => Some (Qred (inject_Z (cond_Zopp s (Zpos m)) * Qpower 2 e))
  | S754_infinity _ | S754_nan => None
  end.

(** ** The type [int] *)

Module Int.

Definition min : Z := (-2147483648)%Z.
Definition max : Z := 2147483647%Z.

Record t : Type := make
  { value : Z;
    in_range : ((min <=? value) && (value <=? max))%Z = true }.

Definition lowest : t := make min eq_refl.
Definition highest : t := make max eq_refl.

(** [std::cin >> i] on the decimal numeral [z], the stream being good: the
    value stored in [i] and whether the read succeeds.  A numeral that does
    not fit an [int] is a failed read: the nearest bound is stored and the
    failbit of the stream is set. *)
Definition extract (z : Z) : t * bool :=
  match Bool.bool_dec ((min <=? z) && (z <=? max))%Z true with
  | left fits => (make z fits, true)
  | right _ => (if (z <? min)%Z then lowest else highest, false)
  end.

End Int.

Coercion Int.value : Int.t >-> Z.

(** ** Console output *)

Inductive Msg : Type :=
| InvalidDepositAmount                      (* "Invalid deposit amount!" *)
| Deposited (amount newBalance : float)         (* "Deposited $.. New balance: $.." *)
| InvalidWithdrawalAmount                   (* "Invalid withdrawal amount!" *)
| MinimumBalanceRequired (minimum : float)      (* "Withdrawal failed! Minimum balance of $.. must be maintained." *)
| OverdraftLimitExceeded (limit : float)        (* "Withdrawal failed! Overdraft limit of $.. exceeded." *)
| OverdraftFeeApplied (fee : float)             (* "Overdraft fee of $.. applied." *)
| Withdrew (amount newBalance : float)          (* "Withdrew $.. New balance: $.." *)
| InterestApplied (interest newBalance : float) (* "Interest of $.. applied. New balance: $.." *)
| SavingsAccountCreated                     (* "Savings account created successfully!" *)
| CurrentAccountCreated                     (* "Current account created successfully!" *)
| ApplyingMonthlyInterest                   (* "=== Applying Monthly Interest ===" *)
| AccountLabel (accNum : string).           (* "Account <number>: " *)

(** What the display methods write, one constructor per line of text. *)
Inductive Line : Type :=
| TransactionLine (type : string) (amount balanceAfter : float)
                                  (* "Type: .. | Amount: $.. | Balance: $.. | Time: .." *)
| HistoryHeader (accNum : string) (* "=== Transaction History for <number> ===" *)
| NoTransactionsFound             (* "No transactions found." *)
| SavingsInformation              (* "=== Savings Account Information ===" *)
| CurrentInformation              (* "=== Current Account Information ===" *)
| InfoAccountNumber (accNum : string)   (* "Account Number: .." *)
| InfoAccountHolder (name : string)     (* "Account Holder: .." *)
| InfoAccountType (type : string)       (* "Account Type: .." *)
| InfoCurrentBalance (balance : float)      (* "Current Balance: $.." *)
| InfoInterestRate (percent : float)        (* "Interest Rate: ..% per annum" *)
| InfoMinimumBalance (minimum : float)      (* "Minimum Balance: $.." *)
| InfoOverdraftLimit (limit : float)        (* "Overdraft Limit: $.." *)
| InfoOverdraftFee (fee : float)            (* "Overdraft Fee: $.." *)
| AccountOverdrawn                      (* "*** ACCOUNT OVERDRAWN ***" *)
| AllAccountsHeader (bankName : string) (* "=== All Accounts in <bank> ===" *)
| NoAccountsFound                       (* "No accounts found." *)
| AccountSummary (accNum holder type : string) (balance : float).
                          (* "Account: .. | Holder: .. | Type: .. | Balance: $.." *)

(** ** class Transaction *)

Module Transaction.

Record t : Type := make
  { type : string;
    amount : float;
    balanceAfter : float }.

Definition getType (tx : t) : string := type tx.
Definition getAmount (tx : t) : float := amount tx.

Definition display (tx : t) : Line :=
  TransactionLine (type tx) (amount tx) (balanceAfter tx).

End Transaction.

(** ** class Account (the abstract base) *)

Module Account.

Record t : Type := make
  { accountNumber : string;
    holderName : string;
    balance : float;
    transactionHistory : list Transaction.t }.

(** [balance = v;] on the object. *)
Definition set_balance (v : float) (a : t) : t :=
  {| accountNumber := accountNumber a;
     holderName := holderName a;
     balance := v;
     transactionHistory := transactionHistory a |}.

(** [transactionHistory.push_back(Transaction(type, amount, balance))] *)
Definition addTransaction (type : string) (amount : float) (a : t) : t :=
  {| accountNumber := accountNumber a;
     holderName := holderName a;
     balance := balance a;
     transactionHistory :=
       transactionHistory a ++ [Transaction.make type amount (balance a)] |}.

(** The constructor: the members are initialised, then an opening
    transaction is recorded when [initialBalance > 0]. *)
Definition new (accNum name : string) (initialBalance : float) : t :=
  let this := {| accountNumber := accNum;
                 holderName := name;
                 balance := initialBalance;
                 transactionHistory := [] |} in
  if 0 <? initialBalance
  then {| accountNumber := accountNumber this;
          holderName := holderName this;
          balance := balance this;
          transactionHistory :=
            transactionHistory this
              ++ [Transaction.make "Initial Deposit" initialBalance (balance this)] |}
  else this.

Definition getBalance (a : t) : float := balance a.
Definition getAccountNumber (a : t) : string := accountNumber a.
Definition getHolderName (a : t) : string := holderName a.

Definition displayTransactionHistory (a : t) : list Line :=
  match transactionHistory a with
  | [] => [HistoryHeader (accountNumber a); NoTransactionsFound]
  | _ :: _ => HistoryHeader (accountNumber a) :: map Transaction.display (transactionHistory a)
  end.

End Account.

(** ** class SavingsAccount : public Account *)

Module SavingsAccount.

Record t : Type := make
  { base : Account.t;
    interestRate : float;
    minimumBalance : float }.

(** A method of the base class run on the [Account] part of the object. *)
Definition on_base (f : Account.t -> Account.t) (s : t) : t :=
  {| base := f (base s);
     interestRate := interestRate s;
     minimumBalance := minimumBalance s |}.

Definition balance (s : t) : float := Account.balance (base s).
Definition transactionHistory (s : t) : list Transaction.t :=
  Account.transactionHistory (base s).

(** Default arguments of the constructor. *)
Definition default_intRate : float := 0.04.
Definition default_minBalance : float := 100.

Definition new (accNum name : string) (initialBalance intRate minBalance : float) : t :=
  {| base := Account.new accNum name initialBalance;
     interestRate := intRate;
     minimumBalance := minBalance |}.

Definition deposit (amount : float) (s : t) : t * list Msg :=
  if amount <=? 0 then (s, [InvalidDepositAmount])
  else
    let s1 := on_base (Account.set_balance (balance s + amount)) s in
    let s2 := on_base (Account.addTransaction "Deposit" amount) s1 in
    (s2, [Deposited amount (balance s2)]).

Definition withdraw (amount : float) (s : t) : bool * t * list Msg :=
  if amount <=? 0 then (false, s, [InvalidWithdrawalAmount])
  else if balance s - amount <? minimumBalance s
  then (false, s, [MinimumBalanceRequired (minimumBalance s)])
  else
    let s1 := on_base (Account.set_balance (balance s - amount)) s in
    let s2 := on_base (Account.addTransaction "Withdrawal" amount) s1 in
    (true, s2, [Withdrew amount (balance s2)]).

Definition applyInterest (s : t) : t * list Msg :=
  let interest := balance s * interestRate s / 12 in
  let s1 := on_base (Account.set_balance (balance s + interest)) s in
  let s2 := on_base (Account.addTransaction "Interest Credit" interest) s1 in
  (s2, [InterestApplied interest (balance s2)]).

Definition getAccountType (s : t) : string := "Savings".
Definition getInterestRate (s : t) : float := interestRate s.
Definition getMinimumBalance (s : t) : float := minimumBalance s.

Definition displayAccountInfo (s : t) : list Line :=
  [SavingsInformation;
   InfoAccountNumber (Account.accountNumber (base s));
   InfoAccountHolder (Account.holderName (base s));
   InfoAccountType "Savings";
   InfoCurrentBalance (balance s);
   InfoInterestRate (interestRate s * 100);
   InfoMinimumBalance (minimumBalance s)].

End SavingsAccount.

(** ** class CurrentAccount : public Account *)

Module CurrentAccount.

Record t : Type := make
  { base : Account.t;
    overdraftLimit : float;
    overdraftFee : float }.

Definition on_base (f : Account.t -> Account.t) (c : t) : t :=
  {| base := f (base c);
     overdraftLimit := overdraftLimit c;
     overdraftFee := overdraftFee c |}.

Definition balance (c : t) : float := Account.balance (base c).
Definition transactionHistory (c : t) : list Transaction.t :=
  Account.transactionHistory (base c).

Definition default_overdraftLim : float := 1000.
Definition default_overdraftF : float := 25.

Definition new (accNum name : string) (initialBalance overdraftLim overdraftF : float) : t :=
  {| base := Account.new accNum name initialBalance;
     overdraftLimit := overdraftLim;
     overdraftFee := overdraftF |}.

Definition deposit (amount : float) (c : t) : t * list Msg :=
  if amount <=? 0 then (c, [InvalidDepositAmount])
  else
    let c1 := on_base (Account.set_balance (balance c + amount)) c in
    let c2 := on_base (Account.addTransaction "Deposit" amount) c1 in
    (c2, [Deposited amount (balance c2)]).

Definition withdraw (amount : float) (c : t) : bool * t * list Msg :=
  if amount <=? 0 then (false, c, [InvalidWithdrawalAmount])
  else if balance c - amount <? - overdraftLimit c
  then (false, c, [OverdraftLimitExceeded (overdraftLimit c)])
  else
    let c1 := on_base (Account.set_balance (balance c - amount)) c in
    let c2 := on_base (Account.addTransaction "Withdrawal" amount) c1 in
    if balance c2 <? 0
    then
      let c3 := on_base (Account.set_balance (balance c2 - overdraftFee c2)) c2 in
      let c4 := on_base (Account.addTransaction "Overdraft Fee" (overdraftFee c3)) c3 in
      (true, c4, [OverdraftFeeApplied (overdraftFee c4); Withdrew amount (balance c4)])
    else (true, c2, [Withdrew amount (balance c2)]).

Definition getAccountType (c : t) : string := "Current".
Definition getOverdraftLimit (c : t) : float := overdraftLimit c.
Definition getOverdraftFee (c : t) : float := overdraftFee c.

Definition displayAccountInfo (c : t) : list Line :=
  [CurrentInformation;
   InfoAccountNumber (Account.accountNumber (base c));
   InfoAccountHolder (Account.holderName (base c));
   InfoAccountType "Current";
   InfoCurrentBalance (balance c);
   InfoOverdraftLimit (overdraftLimit c);
   InfoOverdraftFee (overdraftFee c)]
  ++ (if balance c <? 0 then [AccountOverdrawn] else []).

End CurrentAccount.

(** ** Objects held through [Account*]: dynamic type and virtual calls *)

Inductive AccountObj : Type :=
| Savings (s : SavingsAccount.t)
| Current (c : CurrentAccount.t).

(** The [Account] sub-object. *)
Definition account_base (a : AccountObj) : Account.t :=
  match a with
  | Savings s => SavingsAccount.base s
  | Current c => CurrentAccount.base c
  end.

Definition getBalance (a : AccountObj) : float := Account.getBalance (account_base a).
Definition getAccountNumber (a : AccountObj) : string :=
  Account.getAccountNumber (account_base a).
Definition getHolderName (a : AccountObj) : string :=
  Account.getHolderName (account_base a).
Definition history (a : AccountObj) : list Transaction.t :=
  Account.transactionHistory (account_base a).

(** [acc->deposit(amount)], dispatched on the dynamic type. *)
Definition deposit (amount : float) (a : AccountObj) : AccountObj * list Msg :=
  match a with
  | Savings s => let '(s', out) := SavingsAccount.deposit amount s in (Savings s', out)
  | Current c => let '(c', out) := CurrentAccount.deposit amount c in (Current c', out)
  end.

(** [acc->withdraw(amount)], dispatched on the dynamic type. *)
Definition withdraw (amount : float) (a : AccountObj) : bool * AccountObj * list Msg :=
  match a with
  | Savings s =>
      let '(ok, s', out) := SavingsAccount.withdraw amount s in (ok, Savings s', out)
  | Current c =>
      let '(ok, c', out) := CurrentAccount.withdraw amount c in (ok, Current c', out)
  end.

Definition getAccountType (a : AccountObj) : string :=
  match a with
  | Savings s => SavingsAccount.getAccountType s
  | Current c => CurrentAccount.getAccountType c
  end.

(** [acc->displayAccountInfo()], dispatched on the dynamic type. *)
Definition displayAccountInfo (a : AccountObj) : list Line :=
  match a with
  | Savings s => SavingsAccount.displayAccountInfo s
  | Current c => CurrentAccount.displayAccountInfo c
  end.

(** [acc->displayTransactionHistory()], a method of the base class. *)
Definition displayTransactionHistory (a : AccountObj) : list Line :=
  Account.displayTransactionHistory (account_base a).

(** [dynamic_cast<SavingsAccount*>(account.get())]; [None] is the null pointer. *)
Definition dynamic_cast_SavingsAccount (a : AccountObj) : option SavingsAccount.t :=
  match a with
  | Savings s => Some s
  | Current _ => None
  end.

(** ** class Bank *)

(** [std::find_if]: the position of the first element satisfying [p], the
    length of the list (the end iterator) when there is none. *)
Fixpoint find_if {A : Type} (p : A -> bool) (l : list A) : nat :=
  match l with
  | [] => O
  | x :: l' => if p x then O else S (find_if p l')
  end.

Module Bank.

Record t : Type := make
  { accounts : list AccountObj;
    bankName : string }.

Definition new (name : string) : t :=
  {| accounts := []; bankName := name |}.

Definition push_back (a : AccountObj) (b : t) : t :=
  {| accounts := accounts b ++ [a]; bankName := bankName b |}.

Definition createSavingsAccount (accNum holderName : string) (initialBalance : float)
    (b : t) : t * list Msg :=
  (push_back
     (Savings (SavingsAccount.new accNum holderName initialBalance
                 SavingsAccount.default_intRate SavingsAccount.default_minBalance)) b,
   [SavingsAccountCreated]).

Definition createCurrentAccount (accNum holderName : string) (initialBalance : float)
    (b : t) : t * list Msg :=
  (push_back
     (Current (CurrentAccount.new accNum holderName initialBalance
                 CurrentAccount.default_overdraftLim CurrentAccount.default_overdraftF)) b,
   [CurrentAccountCreated]).

(** The result is the position of the account in [accounts] (the pointer
    [it->get()]), or [None] (the null pointer). *)
Definition findAccount (accNum : string) (b : t) : option nat :=
  let it := find_if (fun acc => String.eqb (getAccountNumber acc) accNum) (accounts b) in
  if negb (Nat.eqb it (List.length (accounts b))) then Some it else None.

(** The object a pointer returned by [findAccount] points to. *)
Definition deref (p : nat) (b : t) : option AccountObj := nth_error (accounts b) p.

(** The body of the range-based [for] of [applyInterestToSavingsAccounts],
    run over the accounts from the first to the last. *)
Fixpoint applyInterest_loop (accs : list AccountObj) : list AccountObj * list Msg :=
  match accs with
  | [] => ([], [])
  | account :: rest =>
      match dynamic_cast_SavingsAccount account with
      | Some savingsAcc =>
          let label := AccountLabel (Account.getAccountNumber (SavingsAccount.base savingsAcc)) in
          let '(savingsAcc', out) := SavingsAccount.applyInterest savingsAcc in
          let '(rest', out') := applyInterest_loop rest in
          (Savings savingsAcc' :: rest', label :: out ++ out')
      | None =>
          let '(rest', out') := applyInterest_loop rest in
          (account :: rest', out')
      end
  end.

Definition applyInterestToSavingsAccounts (b : t) : t * list Msg :=
  let '(accs', out) := applyInterest_loop (accounts b) in
  ({| accounts := accs'; bankName := bankName b |}, ApplyingMonthlyInterest :: out).

Definition getBankName (b : t) : string := bankName b.

Definition displayAllAccounts (b : t) : list Line :=
  match accounts b with
  | [] => [AllAccountsHeader (bankName b); NoAccountsFound]
  | _ :: _ =>
      AllAccountsHeader (bankName b)
        :: map (fun account =>
                  AccountSummary (getAccountNumber account) (getHolderName account)
                    (getAccountType account) (getBalance account))
             (accounts b)
  end.

(** The object at position [p] replaced by [obj]: what a call of a mutating
    method through the pointer [p] leaves in the vector. *)
Fixpoint assign_nth (p : nat) (obj : AccountObj) (accs : list AccountObj) : list AccountObj :=
  match accs, p with
  | [], _ => []
  | _ :: rest, O => obj :: rest
  | first :: rest, S p' => first :: assign_nth p' obj rest
  end.

Definition assign (p : nat) (obj : AccountObj) (b : t) : t :=
  {| accounts := assign_nth p obj (accounts b); bankName := bankName b |}.

End Bank.

(** ** class BankingSystem: the menu loop *)

(** Everything the program writes: the output of the methods, the lines of
    the display methods, and the texts of the loop itself. *)
Inductive Console : Type :=
| Said (m : Msg)
| Shown (l : Line)
| Welcome                      (* "Welcome to the Banking System!" *)
| Menu (bankName : string)     (* the ten numbered lines and "Enter your choice: " *)
| Prompt (text : string)
| AccountNotFound              (* "Account not found!" *)
| CurrentBalanceIs (balance : float) (* "Current balance: $.." *)
| ThankYou (bankName : string) (* "Thank you for using <bank> Banking System!" *)
| InvalidChoice.               (* "Invalid choice! Please try again." *)

Module BankingSystem.

Record t : Type := make { bank : Bank.t }.

Definition new : t := {| bank := Bank.new "ABC Bank" |}.

(** The values the local variables [choice], [accNum], [holderName] and
    [amount] of [run] hold in one turn of the loop when the [switch] uses
    them: what the reads of the turn have stored in them.  A variable whose
    read the turn does not reach is not used in the turn.

    A read that succeeds stores the value typed: an [int], a word, a line,
    a finite [double].  A read that fails sets the failbit of [std::cin],
    which the source never clears; what it leaves in its variable depends on
    the case: 0 or the nearest bound of the type for a number ([Int.extract]
    for the choice), the empty line, or the value held before.  Every later
    read then fails at once and leaves its variable as it is, so the loop
    takes the same turn again and again.  On an empty stdin the first
    [switch] uses [choice] uninitialised; the model takes any [int] for
    it. *)
Record Input : Type :=
  { choice : Int.t;
    accNum : string;
    holderName : string;
    amount : float }.

Definition displayMenu (sys : t) : list Console :=
  [Menu (Bank.getBankName (bank sys))].

(** [if (Account* acc = bank.findAccount(accNum)) { found } else
    { "Account not found!" }], after the prompt for the number.  The pointer
    [findAccount] returns always points into the vector; the branch for a
    pointer that does not only makes the function total. *)
Definition with_account (number : string) (sys : t)
    (found : nat -> AccountObj -> t * list Console) : t * list Console :=
  match Bank.findAccount number (bank sys) with
  | Some acc =>
      match Bank.deref acc (bank sys) with
      | Some obj =>
          let '(sys', out) := found acc obj in
          (sys', Prompt "Enter account number: " :: out)
      | None => (sys, [Prompt "Enter account number: "])
      end
  | None => (sys, [Prompt "Enter account number: "; AccountNotFound])
  end.

(** One pass through the [switch]; the flag tells whether [run] returns. *)
Definition turn (i : Input) (sys : t) : t * list Console * bool :=
  match Int.value (choice i) with
  | 1%Z =>
      let '(b, out) :=
        Bank.createSavingsAccount (accNum i) (holderName i) (amount i) (bank sys) in
      ({| bank := b |},
       [Prompt "Enter account number: "; Prompt "Enter account holder name: ";
        Prompt "Enter initial deposit (0 for no deposit): "] ++ map Said out,
       false)
  | 2%Z =>
      let '(b, out) :=
        Bank.createCurrentAccount (accNum i) (holderName i) (amount i) (bank sys) in
      ({| bank := b |},
       [Prompt "Enter account number: "; Prompt "Enter account holder name: ";
        Prompt "Enter initial deposit (0 for no deposit): "] ++ map Said out,
       false)
  | 3%Z =>
      (with_account (accNum i) sys (fun acc obj =>
         let '(obj', out) := deposit (amount i) obj in
         ({| bank := Bank.assign acc obj' (bank sys) |},
          Prompt "Enter deposit amount: " :: map Said out)),
       false)
  | 4%Z =>
      (with_account (accNum i) sys (fun acc obj =>
         let '(_, obj', out) := withdraw (amount i) obj in
         ({| bank := Bank.assign acc obj' (bank sys) |},
          Prompt "Enter withdrawal amount: " :: map Said out)),
       false)
  | 5%Z =>
      (with_account (accNum i) sys (fun acc obj =>
         (sys, [CurrentBalanceIs (getBalance obj)])),
       false)
  | 6%Z =>
      (with_account (accNum i) sys (fun acc obj =>
         (sys, map Shown (displayAccountInfo obj))),
       false)
  | 7%Z =>
      (with_account (accNum i) sys (fun acc obj =>
         (sys, map Shown (displayTransactionHistory obj))),
       false)
  | 8%Z => (sys, map Shown (Bank.displayAllAccounts (bank sys)), false)
  | 9%Z =>
      let '(b, out) := Bank.applyInterestToSavingsAccounts (bank sys) in
      ({| bank := b |}, map Said out, false)
  | 10%Z => (sys, [ThankYou (Bank.getBankName (bank sys))], true)
  | _ => (sys, [InvalidChoice], false)
  end.

(** The loop of [run] over its first turns.  The flag is [true] when [run]
    has returned (choice 10) within these turns and [false] when the loop
    has shown the menu again and goes on; the turns after the one that
    returns are not taken. *)
Fixpoint run (inputs : list Input) (sys : t) : t * list Console * bool :=
  match inputs with
  | [] => (sys, displayMenu sys, false)
  | i :: rest =>
      let '(sys', out, returned) := turn i sys in
      if returned then (sys', displayMenu sys ++ out, true)
      else
        let '(sys'', out', returned') := run rest sys' in
        (sys'', displayMenu sys ++ out ++ out', returned')
  end.

End BankingSystem.


(** ** States an account can reach *)

(** [reachable init a]: [a] is an account constructed with the initial
    balance [init] (any number, holder and policy parameters) after some
    sequence of [deposit], [withdraw] and, on a savings account,
    [applyInterest] calls, with any [double] as amount. *)
Inductive reachable (init : float) : AccountObj -> Prop :=
| reach_new_savings (accNum name : string) (intRate minBalance : float) :
    reachable init (Savings (SavingsAccount.new accNum name init intRate minBalance))
| reach_new_current (accNum name : string) (overdraftLim overdraftF : float) :
    reachable init (Current (CurrentAccount.new accNum name init overdraftLim overdraftF))
| reach_deposit (a : AccountObj) (amount : float) :
    reachable init a -> reachable init (fst (deposit amount a))
| reach_withdraw (a : AccountObj) (amount : float) :
    reachable init a -> reachable init (snd (fst (withdraw amount a)))
| reach_applyInterest (s : SavingsAccount.t) :
    reachable init (Savings s) ->
    reachable init (Savings (fst (SavingsAccount.applyInterest s))).

(** ** Sequences of operations on one account *)

(** [SavingsAccount::applyInterest] reached through an [Account*]: the
    bank calls it on the accounts whose dynamic type is [SavingsAccount] and
    passes over the others. *)
Definition applyInterest (a : AccountObj) : AccountObj * list Msg :=
  match dynamic_cast_SavingsAccount a with
  | Some savingsAcc =>
      let '(s', out) := SavingsAccount.applyInterest savingsAcc in (Savings s', out)
  | None => (a, [])
  end.

Inductive Op : Type :=
| OpDeposit (amount : float)
| OpWithdraw (amount : float)
| OpApplyInterest.

Definition step (op : Op) (a : AccountObj) : AccountObj :=
  match op with
  | OpDeposit amount => fst (deposit amount a)
  | OpWithdraw amount => snd (fst (withdraw amount a))
  | OpApplyInterest => fst (applyInterest a)
  end.

(** The operations of [ops] applied to [a] from the first to the last. *)
Definition run (ops : list Op) (a : AccountObj) : AccountObj :=
  fold_left (fun acc op => step op acc) ops a.

(** [created init a]: [a] is what a constructor returns for the initial
    balance [init]. *)
Definition created (init : float) (a : AccountObj) : Prop :=
  (exists accNum name intRate minBalance,
      a = Savings (SavingsAccount.new accNum name init intRate minBalance))
  \/ (exists accNum name overdraftLim overdraftF,
         a = Current (CurrentAccount.new accNum name init overdraftLim overdraftF)).

(** ** Measures on a transaction history used by the properties *)

Definition is_type (name : string) (tx : Transaction.t) : bool :=
  String.eqb (Transaction.type tx) name.

(** The sign the kind of a transaction gives its amount: deposits, the
    initial deposit and interest credits count positive, withdrawals and
    overdraft fees negative. *)
Definition sign_of_kind (tx : Transaction.t) : Z :=
  if is_type "Deposit" tx || is_type "Initial Deposit" tx || is_type "Interest Credit" tx
  then 1%Z
  else if is_type "Withdrawal" tx || is_type "Overdraft Fee" tx
  then (-1)%Z
  else 0%Z.

(** The sum, in exact arithmetic, of the signed amounts of a history;
    [None] when an amount is infinite or NaN. *)
Fixpoint exact_signed_total (h : list Transaction.t) : option Q :=
  match h with
  | [] => Some 0%Q
  | tx :: h' =>
      match exact (Transaction.amount tx), exact_signed_total h' with
      | Some q, Some total => Some (Qred (inject_Z (sign_of_kind tx) * q + total))
      | _, _ => None
      end
  end.

(** The signed amount of a transaction added to [b] in [double]
    arithmetic. *)
Definition add_signed_amount (b : float) (tx : Transaction.t) : float :=
  if Z.eqb (sign_of_kind tx) 1 then b + Transaction.amount tx
  else if Z.eqb (sign_of_kind tx) (-1) then b - Transaction.amount tx
  else b.

(** [b] plus the signed amounts of a history, added in [double] arithmetic
    one after the other, from the first transaction to the last. *)
Definition running_total (b : float) (h : list Transaction.t) : float :=
  fold_left add_signed_amount h b.

(** The sum of the signed amounts alone. *)
Definition signed_total (h : list Transaction.t) : float := running_total 0 h.

(** The balance after the event a transaction records, from the balance
    [b] before it: the amount is added or subtracted in [double]
    arithmetic, according to the kind; the initial deposit, which restates
    the opening balance, changes nothing. *)
Definition apply_change (b : float) (tx : Transaction.t) : float :=
  if is_type "Initial Deposit" tx then b
  else if is_type "Deposit" tx || is_type "Interest Credit" tx
  then b + Transaction.amount tx
  else if is_type "Withdrawal" tx || is_type "Overdraft Fee" tx
  then b - Transaction.amount tx
  else b.

(** The balance [b] taken through the events of a history in order. *)
Definition replay (b : float) (h : list Transaction.t) : float :=
  fold_left apply_change h b.

(** [tracks b h]: starting from the balance [b], every transaction of [h]
    in turn records as [balanceAfter] the balance reached by applying its
    change to the balance before it. *)
Fixpoint tracks (b : float) (h : list Transaction.t) : Prop :=
  match h with
  | [] => True
  | tx :: h' =>
      Transaction.balanceAfter tx = apply_change b tx
      /\ tracks (Transaction.balanceAfter tx) h'
  end.

(** The balance recorded last in [h], [b] when [h] is empty. *)
Definition last_balance (b : float) (h : list Transaction.t) : float :=
  last (map Transaction.balanceAfter h) b.

(** ** Consistency of the balance with the history *)

(** [consistent init a]: the balance and the history of [a] agree with
    each other and with the opening balance [init]. *)
Record consistent (init : float) (a : Account.t) : Prop :=
  { balance_is_replay :
      Account.balance a = replay init (Account.transactionHistory a);
    history_tracks : tracks init (Account.transactionHistory a);
    balance_is_last :
      Account.balance a = last_balance init (Account.transactionHistory a) }.

(** ** Signs of [double] values *)

(** [SFsigned s x]: [x] is not on the side of zero opposite to the sign
    [s]: it is a zero, NaN, or a finite or infinite value of sign [s]. *)
Definition SFsigned (s : bool) (x : spec_float) : Prop :=
  match x with
  | S754_zero _ | S754_nan => True
  | S754_infinity s' | S754_finite s' _ _ => s' = s
  end.

(** [SFstrict s x]: [x] is a finite or infinite value of sign [s], so
    neither a zero nor NaN. *)
Definition SFstrict (s : bool) (x : spec_float) : Prop :=
  match x with
  | S754_infinity s' | S754_finite s' _ _ => s' = s
  | S754_zero _ | S754_nan => False
  end.

(** ** Predicates on amounts and policies *)

(** The policy parameters an account was constructed with are not
    negative: rate and minimum balance of a savings account, fee of a
    current account. *)
Definition policy_nonneg (a : AccountObj) : Prop :=
  match a with
  | Savings s =>
      (0 <=? SavingsAccount.interestRate s) = true
      /\ (0 <=? SavingsAccount.minimumBalance s) = true
  | Current c => (0 <=? CurrentAccount.overdraftFee c) = true
  end.

(** The policy parameters of an account: rate and minimum balance, or
    overdraft limit and fee. *)
Definition policy (a : AccountObj) : float * float :=
  match a with
  | Savings s => (SavingsAccount.interestRate s, SavingsAccount.minimumBalance s)
  | Current c => (CurrentAccount.overdraftLimit c, CurrentAccount.overdraftFee c)
  end.

(** What the guards of the methods and of the constructor establish about
    the amount they record: the constructor records a positive amount, a
    deposit or a withdrawal an amount that is not [<= 0] (it is positive or
    NaN). *)
Definition guarded_amount (tx : Transaction.t) : Prop :=
  (is_type "Initial Deposit" tx = true -> (0 <? Transaction.amount tx) = true)
  /\ (is_type "Deposit" tx || is_type "Withdrawal" tx = true ->
      (Transaction.amount tx <=? 0) = false).

(** The amount is not below zero (it may be NaN). *)
Definition amount_not_negative (tx : Transaction.t) : Prop :=
  (Transaction.amount tx <? 0) = false.

(** A savings account was opened with a balance that is not negative; a
    current account with any balance. *)
Definition opened_not_negative (init : float) (a : AccountObj) : Prop :=
  match a with
  | Savings _ => (init <? 0) = false
  | Current _ => True
  end.

(** The balance of a savings account is not negative. *)
Definition savings_balance_not_negative (a : AccountObj) : Prop :=
  match a with
  | Savings s => (SavingsAccount.balance s <? 0) = false
  | Current _ => True
  end.

(** ** Vocabulary of the further properties *)

(** What the constructor leaves in the history for the initial balance
    [init]. *)
Definition opening (init : float) : list Transaction.t :=
  if 0 <? init then [Transaction.make "Initial Deposit" init init] else [].

(** The kinds of transaction the methods of the variant of [a] record. *)
Definition method_kinds (a : AccountObj) : list string :=
  match a with
  | Savings _ => ["Deposit"; "Withdrawal"; "Interest Credit"]
  | Current _ => ["Deposit"; "Withdrawal"; "Overdraft Fee"]
  end.

Definition of_method_kind (a : AccountObj) (tx : Transaction.t) : Prop :=
  In (Transaction.type tx) (method_kinds a).

(** The account carries the policy parameters the bank creates accounts
    with (the default arguments of the constructors). *)
Definition bank_policy (a : AccountObj) : Prop :=
  match a with
  | Savings s =>
      SavingsAccount.interestRate s = SavingsAccount.default_intRate
      /\ SavingsAccount.minimumBalance s = SavingsAccount.default_minBalance
  | Current c =>
      CurrentAccount.overdraftLimit c = CurrentAccount.default_overdraftLim
      /\ CurrentAccount.overdraftFee c = CurrentAccount.default_overdraftF
  end.

(** [a'] is [a] at a later time: the same number, holder, dynamic type and
    policy, and a history that extends the one of [a]. *)
Definition evolves (a a' : AccountObj) : Prop :=
  getAccountNumber a' = getAccountNumber a
  /\ getHolderName a' = getHolderName a
  /\ getAccountType a' = getAccountType a
  /\ policy a' = policy a
  /\ exists appended, history a' = history a ++ appended.

(** An account stored before [a] (at a position below [p]) has the number
    of [a]. *)
Definition shadowed (p : nat) (a : AccountObj) (b : Bank.t) : Prop :=
  exists q a0, (q < p)%nat /\ Bank.deref q b = Some a0
               /\ getAccountNumber a0 = getAccountNumber a.

(** [a] was created by the bank with some initial balance and has since
    only been operated on through its methods. *)
Definition bank_account (a : AccountObj) : Prop :=
  bank_policy a /\ exists init, reachable init a.

(** The line of the listing of all accounts that describes [a]. *)
Definition summary_line (a : AccountObj) : Line :=
  AccountSummary (getAccountNumber a) (getHolderName a) (getAccountType a) (getBalance a).

(** ** One round of the interest loop *)

(** What one round of the loop does to one account, and what it prints. *)
Definition interest_round (a : AccountObj) : AccountObj := fst (applyInterest a).

Definition interest_round_output (a : AccountObj) : list Msg :=
  match a with
  | Savings s =>
      AccountLabel (getAccountNumber a) :: snd (SavingsAccount.applyInterest s)
  | Current _ => []
  end.

(** * Properties *)

(** ** Facts about [double] arithmetic *)

Open Scope Z_scope.

Lemma SFcompare_antisym (x y : spec_float) :
  SFcompare y x = option_map CompOpp (SFcompare x y).
Proof.
  destruct x as [[] | [] | | [] mx ex], y as [[] | [] | | [] my ey]; cbn; try reflexivity;
    rewrite (Z.compare_antisym ex ey); destruct (ex ?= ey); cbn; try reflexivity;
    assert (H : Pos.compare_cont Eq my mx = CompOpp (Pos.compare_cont Eq mx my))
      by (symmetry; apply (Pos.compare_cont_antisym mx my Eq));
    rewrite H; destruct (Pos.compare_cont Eq mx my); reflexivity.
Qed.

Lemma binary_round_aux_signed (s : bool) (m e : Z) (l : location) :
  SFsigned s (binary_round_aux prec emax s m e l).
Proof.
  unfold binary_round_aux.
  destruct (shr_fexp prec emax m e l) as [mrs' e'].
  destruct (shr_fexp prec emax _ e' loc_Exact) as [mrs'' e''].
  destruct (shr_m mrs''); [exact I | | exact I].
  destruct (e'' <=? emax - prec); reflexivity.
Qed.

Lemma binary_round_signed (s : bool) (m : positive) (e : Z) :
  SFsigned s (binary_round prec emax s m e).
Proof.
  unfold binary_round. destruct (shl_align m e _) as [mz ez].
  apply binary_round_aux_signed.
Qed.

Lemma shr_1_div2 (mrs : shr_record) :
  0 <= shr_m mrs -> shr_m (shr_1 mrs) = shr_m mrs / 2.
Proof.
  destruct mrs as [m r s]. cbn [shr_m]. intro H.
  destruct m as [| [p | p |] | p]; cbn [shr_1 shr_m]; try lia.
  - reflexivity.
  - rewrite Pos2Z.inj_xI. apply (Z.div_unique _ 2 _ 1); lia.
  - rewrite Pos2Z.inj_xO. apply (Z.div_unique _ 2 _ 0); lia.
  - reflexivity.
Qed.

Lemma iter_shr_1 (n : positive) (mrs : shr_record) :
  0 <= shr_m mrs -> shr_m (SpecFloat.iter_pos shr_1 n mrs) = shr_m mrs / 2 ^ Zpos n.
Proof.
  revert mrs. induction n as [n IH | n IH |]; intros mrs H; cbn [SpecFloat.iter_pos].
  - assert (H1 : 0 <= shr_m (shr_1 mrs))
      by (rewrite shr_1_div2 by exact H; apply Z.div_pos; lia).
    assert (H2 : 0 <= shr_m (SpecFloat.iter_pos shr_1 n (shr_1 mrs)))
      by (rewrite IH by exact H1; apply Z.div_pos; [exact H1 | apply Z.pow_pos_nonneg; lia]).
    rewrite IH by exact H2. rewrite IH by exact H1. rewrite shr_1_div2 by exact H.
    rewrite !Z.div_div by (try apply Z.pow_pos_nonneg; lia).
    f_equal. rewrite Pos2Z.inj_xI.
    replace (2 * Zpos n + 1) with (1 + Zpos n + Zpos n) by lia.
    rewrite !Z.pow_add_r by lia. change (2 ^ 1) with 2. ring.
  - assert (H2 : 0 <= shr_m (SpecFloat.iter_pos shr_1 n mrs))
      by (rewrite IH by exact H; apply Z.div_pos; [exact H | apply Z.pow_pos_nonneg; lia]).
    rewrite IH by exact H2. rewrite IH by exact H.
    rewrite !Z.div_div by (try apply Z.pow_pos_nonneg; lia).
    f_equal. replace (Zpos n~0) with (Zpos n + Zpos n) by lia.
    rewrite !Z.pow_add_r by lia. reflexivity.
  - rewrite shr_1_div2 by exact H. reflexivity.
Qed.

Lemma digits2_pos_lower (m : positive) : 2 ^ (Zpos (digits2_pos m) - 1) <= Zpos m.
Proof.
  induction m as [m IH | m IH |]; cbn [digits2_pos].
  - replace (Zpos (Pos.succ (digits2_pos m)) - 1)
      with (Z.succ (Zpos (digits2_pos m) - 1)) by lia.
    rewrite Z.pow_succ_r by lia. lia.
  - replace (Zpos (Pos.succ (digits2_pos m)) - 1)
      with (Z.succ (Zpos (digits2_pos m) - 1)) by lia.
    rewrite Z.pow_succ_r by lia. lia.
  - cbn. lia.
Qed.

Lemma shr_fexp_pos (m : positive) (e : Z) (l : location) :
  emin <= e ->
  0 < shr_m (fst (shr_fexp prec emax (Zpos m) e l))
  /\ emin <= snd (shr_fexp prec emax (Zpos m) e l).
Proof.
  intro He. unfold shr_fexp, shr. cbn [Zdigits2].
  set (d := Zpos (digits2_pos m)).
  assert (Hm : shr_m (shr_record_of_loc (Zpos m) l) = Zpos m)
    by (destruct l as [| []]; reflexivity).
  destruct (fexp prec emax (d + e) - e) as [| n | n] eqn:En; cbn [fst snd].
  - rewrite Hm. lia.
  - rewrite iter_shr_1 by (rewrite Hm; lia). rewrite Hm. split; [| lia].
    apply Z.div_str_pos. split; [apply Z.pow_pos_nonneg; lia |].
    apply Z.le_trans with (2 ^ (d - 1)); [| apply digits2_pos_lower].
    apply Z.pow_le_mono_r; [lia |].
    unfold fexp, SpecFloat.emin, prec, emax in *. lia.
  - rewrite Hm. lia.
Qed.

Lemma round_nearest_even_pos (m : Z) (l : location) :
  0 < m -> 0 < round_nearest_even m l.
Proof.
  intro H. destruct l as [| []]; cbn; try lia. destruct (Z.even m); lia.
Qed.

Lemma binary_round_aux_strict (s : bool) (m : positive) (e : Z) (l : location) :
  emin <= e -> SFstrict s (binary_round_aux prec emax s (Zpos m) e l).
Proof.
  intro He. unfold binary_round_aux.
  destruct (shr_fexp_pos m e l He) as [H1 H2].
  destruct (shr_fexp prec emax (Zpos m) e l) as [mrs' e']. cbn [fst snd] in H1, H2.
  pose proof (round_nearest_even_pos _ (loc_of_shr_record mrs') H1) as H3.
  destruct (round_nearest_even (shr_m mrs') (loc_of_shr_record mrs')) as [| m' | m'];
    try lia.
  destruct (shr_fexp_pos m' e' loc_Exact H2) as [H4 _].
  destruct (shr_fexp prec emax (Zpos m') e' loc_Exact) as [mrs'' e'']. cbn [fst] in H4.
  destruct (shr_m mrs''); try lia.
  destruct (e'' <=? emax - prec); reflexivity.
Qed.

Lemma binary_round_strict (s : bool) (m : positive) (e : Z) :
  emin <= e -> SFstrict s (binary_round prec emax s m e).
Proof.
  intro He. unfold binary_round, shl_align.
  destruct (fexp prec emax (Zpos (digits2_pos m) + e) - e) eqn:E;
    apply binary_round_aux_strict; try exact He.
  unfold fexp. lia.
Qed.

Lemma valid_finite_emin (s : bool) (m : positive) (e : Z) :
  valid_binary (S754_finite s m e) = true -> emin <= e.
Proof.
  cbn [valid_binary]. unfold bounded, canonical_mantissa. intro H.
  apply andb_prop in H. destruct H as [H _]. apply Z.eqb_eq in H.
  unfold fexp, SpecFloat.emin, prec, emax in *. lia.
Qed.

Lemma SFsub_strict (x y : spec_float) :
  valid_binary x = true -> valid_binary y = true ->
  SFstrict true x -> SFsigned false y -> y <> S754_nan ->
  SFstrict true (SF64sub x y).
Proof.
  intros Vx Vy Hx Hy Hnan.
  destruct x as [sx | sx | | sx mx ex]; cbn in Hx; try contradiction; subst sx;
    destruct y as [sy | sy | | sy my ey]; cbn in Hy; try subst sy; try contradiction;
    try (destruct sy); cbn; try reflexivity.
  - apply binary_round_strict.
    apply valid_finite_emin in Vx, Vy. lia.
Qed.

Lemma SFadd_signed (s : bool) (x y : spec_float) :
  SFsigned s x -> SFsigned s y -> SFsigned s (SF64add x y).
Proof.
  intros Hx Hy.
  destruct x as [sx | sx | | sx mx ex]; cbn in Hx; try subst sx;
    destruct y as [sy | sy | | sy my ey]; cbn in Hy; try subst sy;
    try (destruct sx); try (destruct sy); try (destruct s); cbn; try exact I;
    try reflexivity; apply binary_round_signed.
Qed.

Lemma SFmul_signed (s : bool) (x y : spec_float) :
  SFsigned s x -> SFsigned false y -> SFsigned s (SF64mul x y).
Proof.
  intros Hx Hy.
  destruct x as [sx | sx | | sx mx ex]; cbn in Hx; try subst sx;
    destruct y as [sy | sy | | sy my ey]; cbn in Hy; try subst sy;
    cbn; try exact I; try (destruct s; reflexivity).
  replace (xorb s false) with s by (destruct s; reflexivity).
  apply binary_round_aux_signed.
Qed.

Lemma SFdiv_signed (s : bool) (x : spec_float) (m : positive) (e : Z) :
  SFsigned s x -> SFsigned s (SF64div x (S754_finite false m e)).
Proof.
  intro Hx.
  destruct x as [sx | sx | | sx mx ex]; cbn in Hx; try subst sx;
    cbn [SF64div SFdiv SFsigned]; try exact I; try (destruct s; reflexivity).
  replace (xorb s false) with s by (destruct s; reflexivity).
  destruct (SFdiv_core_binary prec emax (Zpos mx) ex (Zpos m) e) as [[mz ez] lz].
  apply binary_round_aux_signed.
Qed.

Close Scope Z_scope.

(** The comparisons with zero, read on the representation. *)
Ltac against_zero x :=
  rewrite ?ltb_spec, ?leb_spec; change (Prim2SF 0) with (S754_zero false);
  destruct (Prim2SF x) as [[] | [] | | [] ? ?]; cbn; try congruence; try tauto;
  try (split; intros; first [exact I | reflexivity | congruence | contradiction]).

Lemma positive_not_le_zero (x : float) : (0 <? x) = true -> (x <=? 0) = false.
Proof. against_zero x. Qed.

Lemma le_zero_not_positive (x : float) : (x <=? 0) = true -> (0 <? x) = false.
Proof. against_zero x. Qed.

Lemma not_le_zero_not_negative (x : float) : (x <=? 0) = false -> (x <? 0) = false.
Proof. against_zero x. Qed.

Lemma positive_not_negative (x : float) : (0 <? x) = true -> (x <? 0) = false.
Proof. against_zero x. Qed.

Lemma nonneg_not_negative (x : float) : (0 <=? x) = true -> (x <? 0) = false.
Proof. against_zero x. Qed.

Lemma not_negative_signed (x : float) :
  (x <? 0) = false <-> SFsigned false (Prim2SF x).
Proof. against_zero x. Qed.

Lemma not_positive_signed (x : float) :
  (0 <? x) = false <-> SFsigned true (Prim2SF x).
Proof. against_zero x. Qed.

Lemma negative_strict (x : float) :
  (x <? 0) = true <-> SFstrict true (Prim2SF x).
Proof. against_zero x. Qed.

Lemma nonneg_signed (x : float) :
  (0 <=? x) = true -> SFsigned false (Prim2SF x) /\ Prim2SF x <> S754_nan.
Proof. against_zero x; intros _; split; congruence. Qed.

(** [x <= y] excludes [y < x], for any two values. *)
Lemma le_not_lt (x y : float) : (x <=? y) = true -> (y <? x) = false.
Proof.
  rewrite ltb_spec, leb_spec. unfold SFleb, SFltb.
  rewrite (SFcompare_antisym (Prim2SF x) (Prim2SF y)).
  destruct (SFcompare (Prim2SF x) (Prim2SF y)) as [[] |]; cbn; congruence.
Qed.

(** A negative value is below every value that is [>= 0]. *)
Lemma negative_lt_nonneg (x y : float) :
  (x <? 0) = true -> (0 <=? y) = true -> (x <? y) = true.
Proof.
  rewrite !ltb_spec, leb_spec. change (Prim2SF 0) with (S754_zero false).
  destruct (Prim2SF x) as [[] | [] | | [] ? ?], (Prim2SF y) as [[] | [] | | [] ? ?];
    cbn; congruence.
Qed.

Lemma add_signed (s : bool) (x y : float) :
  SFsigned s (Prim2SF x) -> SFsigned s (Prim2SF y) -> SFsigned s (Prim2SF (x + y)).
Proof. intros Hx Hy. rewrite add_spec. apply SFadd_signed; assumption. Qed.

Lemma mul_signed (s : bool) (x r : float) :
  SFsigned s (Prim2SF x) -> (0 <=? r) = true -> SFsigned s (Prim2SF (x * r)).
Proof.
  intros Hx Hr. rewrite mul_spec. apply SFmul_signed; [exact Hx |].
  apply nonneg_signed. exact Hr.
Qed.

Lemma div_12_signed (s : bool) (x : float) :
  SFsigned s (Prim2SF x) -> SFsigned s (Prim2SF (x / 12)).
Proof.
  intro Hx. rewrite div_spec.
  change (Prim2SF 12) with (S754_finite false 6755399441055744 (-49)).
  apply SFdiv_signed. exact Hx.
Qed.

(** The interest on a balance that is not negative, at a rate that is
    [>= 0], is not negative, and neither is the balance with the interest
    added; likewise with "not positive". *)
Lemma interest_signed (s : bool) (b r : float) :
  SFsigned s (Prim2SF b) -> (0 <=? r) = true ->
  SFsigned s (Prim2SF (b * r / 12)) /\ SFsigned s (Prim2SF (b + b * r / 12)).
Proof.
  intros Hb Hr.
  assert (Hi : SFsigned s (Prim2SF (b * r / 12)))
    by (apply div_12_signed, mul_signed; assumption).
  split; [exact Hi | apply add_signed; assumption].
Qed.

(** Adding a positive value to zero gives that value. *)
Lemma zero_add_positive (x : float) : (0 <? x) = true -> 0 + x = x.
Proof.
  intro H. apply Prim2SF_inj. rewrite add_spec. revert H.
  rewrite ltb_spec. change (Prim2SF 0) with (S754_zero false).
  destruct (Prim2SF x) as [[] | [] | | [] ? ?]; cbn; try congruence; reflexivity.
Qed.

(** Subtracting a value that is [>= 0] from a negative value leaves a
    negative value. *)
Lemma sub_negative (x f : float) :
  (x <? 0) = true -> (0 <=? f) = true -> (x - f <? 0) = true.
Proof.
  intros Hx Hf. apply negative_strict. rewrite sub_spec.
  apply nonneg_signed in Hf. destruct Hf as [Hf Hnan].
  apply SFsub_strict; try apply Prim2SF_valid; try assumption.
  apply negative_strict. exact Hx.
Qed.

(** ** The reachable states are the runs from a constructed account *)

Lemma created_reachable (init : float) (a : AccountObj) :
  created init a -> reachable init a.
Proof.
  intros [(accNum & name & r & m & ->) | (accNum & name & l & f & ->)];
    [apply reach_new_savings | apply reach_new_current].
Qed.

Lemma step_reachable (init : float) (op : Op) (a : AccountObj) :
  reachable init a -> reachable init (step op a).
Proof.
  intro H. destruct op as [amount | amount |]; cbn [step].
  - apply reach_deposit. exact H.
  - apply reach_withdraw. exact H.
  - destruct a as [s | c]; cbn; [apply reach_applyInterest |]; exact H.
Qed.

Lemma run_reachable (init : float) (ops : list Op) (a : AccountObj) :
  reachable init a -> reachable init (run ops a).
Proof.
  unfold run. revert a. induction ops as [| op ops IH]; intros a H; cbn [fold_left].
  - exact H.
  - apply IH, step_reachable, H.
Qed.

Lemma run_snoc (ops : list Op) (op : Op) (a : AccountObj) :
  run (ops ++ [op]) a = step op (run ops a).
Proof. unfold run. rewrite fold_left_app. reflexivity. Qed.

Lemma reachable_is_run (init : float) (a : AccountObj) :
  reachable init a <-> exists a0 ops, created init a0 /\ a = run ops a0.
Proof.
  split.
  - induction 1 as [accNum name r m | accNum name l f | a amount _ IH | a amount _ IH | s _ IH].
    + exists (Savings (SavingsAccount.new accNum name init r m)), [].
      split; [left; repeat eexists | reflexivity].
    + exists (Current (CurrentAccount.new accNum name init l f)), [].
      split; [right; repeat eexists | reflexivity].
    + destruct IH as (a0 & ops & Hc & ->).
      exists a0, (ops ++ [OpDeposit amount]). split; [exact Hc |].
      rewrite run_snoc. reflexivity.
    + destruct IH as (a0 & ops & Hc & ->).
      exists a0, (ops ++ [OpWithdraw amount]). split; [exact Hc |].
      rewrite run_snoc. reflexivity.
    + destruct IH as (a0 & ops & Hc & Heq).
      exists a0, (ops ++ [OpApplyInterest]). split; [exact Hc |].
      rewrite run_snoc, <- Heq. reflexivity.
  - intros (a0 & ops & Hc & ->). apply run_reachable, created_reachable, Hc.
Qed.

(** ** Deposits *)

(** The claim C4 as the specification words it fails: the balance is
    raised by the amount rounded to a [double], which can be nothing at all.
    A deposit of 1 into a balance of 1e16 is accepted and recorded and leaves
    the balance at 1e16. *)
Lemma deposit_can_leave_the_balance :
  let a := Savings (SavingsAccount.new "S1" "Alice" 1e16 0.04 100) in
  (0 <? 1) = true
  /\ getBalance (fst (deposit 1 a)) = getBalance a
  /\ history (fst (deposit 1 a)) = history a ++ [Transaction.make "Deposit" 1 1e16]
  /\ exact (getBalance a) = Some (10000000000000000 # 1)%Q
  /\ exact 1 = Some (1 # 1)%Q
  /\ exact (getBalance (fst (deposit 1 a))) = Some (10000000000000000 # 1)%Q.
Proof. cbv zeta. repeat split. Qed.

(** C4 (amended). On an account of either variant, [deposit amount] with
    [amount <= 0] leaves the account (balance and history included) as it
    was and reports the failure; with any other amount, so with every
    positive one, it sets the balance to the sum of the balance and the
    amount rounded to a [double] and appends exactly one "Deposit"
    transaction recording the amount and that balance. *)
Theorem deposit_spec (a : AccountObj) (amount : float) :
  ((amount <=? 0) = true -> deposit amount a = (a, [InvalidDepositAmount]))
  /\ ((amount <=? 0) = false ->
      getBalance (fst (deposit amount a)) = getBalance a + amount
      /\ history (fst (deposit amount a))
         = history a ++ [Transaction.make "Deposit" amount (getBalance a + amount)]
      /\ snd (deposit amount a) = [Deposited amount (getBalance a + amount)])
  /\ ((0 <? amount) = true -> (amount <=? 0) = false).
Proof.
  split; [| split]; [intro H | intro H | apply positive_not_le_zero].
  - destruct a as [s | c]; unfold deposit, SavingsAccount.deposit, CurrentAccount.deposit;
      rewrite H; reflexivity.
  - destruct a as [s | c]; unfold deposit, SavingsAccount.deposit, CurrentAccount.deposit;
      rewrite H; repeat split.
Qed.

(** C10. On the same [Account] sub-object and the same amount, the deposit
    of a savings account and the deposit of a current account leave the same
    [Account] sub-object (balance, history with the same appended
    transaction) and write the same output, whatever the policy fields. *)
Theorem deposit_variants_agree (b : Account.t) (amount intRate minBalance lim fee : float) :
  let s := SavingsAccount.make b intRate minBalance in
  let c := CurrentAccount.make b lim fee in
  SavingsAccount.base (fst (SavingsAccount.deposit amount s))
  = CurrentAccount.base (fst (CurrentAccount.deposit amount c))
  /\ snd (SavingsAccount.deposit amount s) = snd (CurrentAccount.deposit amount c)
  /\ SavingsAccount.interestRate (fst (SavingsAccount.deposit amount s)) = intRate
  /\ SavingsAccount.minimumBalance (fst (SavingsAccount.deposit amount s)) = minBalance
  /\ CurrentAccount.overdraftLimit (fst (CurrentAccount.deposit amount c)) = lim
  /\ CurrentAccount.overdraftFee (fst (CurrentAccount.deposit amount c)) = fee.
Proof.
  intros s c. unfold SavingsAccount.deposit, CurrentAccount.deposit.
  destruct (amount <=? 0); repeat split.
Qed.

(** ** Withdrawals from a savings account *)

(** The claim C2 as the specification words it fails in two ways.  The
    test is made on the difference rounded to a [double]: with the balance
    at the minimum of 100, a withdrawal of 1e-20 leaves, exactly, less than
    the minimum, and is accepted (the balance stays 100).  And the test is
    "not below the minimum", which an unordered difference passes: from an
    infinite balance, which two deposits of 1e308 reach, a withdrawal of
    infinity is accepted although its difference, NaN, is not [>=] the
    minimum. *)
Lemma savings_withdraw_below_minimum :
  let s := SavingsAccount.new "S1" "Alice" 100 0.04 100 in
  let rich := run [OpDeposit 1e308; OpDeposit 1e308]
                (Savings (SavingsAccount.new "S2" "Bob" 0 0.04 100)) in
  ((0 <? 1e-20) = true
   /\ (exists qb qa qm,
          exact (SavingsAccount.balance s) = Some qb
          /\ exact 1e-20 = Some qa
          /\ exact (SavingsAccount.minimumBalance s) = Some qm
          /\ (qb - qa < qm)%Q)
   /\ fst (fst (SavingsAccount.withdraw 1e-20 s)) = true
   /\ SavingsAccount.balance (snd (fst (SavingsAccount.withdraw 1e-20 s))) = 100)
  /\ (getBalance rich = infinity
      /\ (0 <? infinity) = true
      /\ fst (fst (withdraw infinity rich)) = true
      /\ (100 <=? getBalance rich - infinity) = false
      /\ getBalance (snd (fst (withdraw infinity rich))) = nan).
Proof.
  cbv zeta. split; [| repeat split].
  split; [reflexivity |]. split; [| split; reflexivity].
  eexists. eexists. eexists.
  split; [vm_compute; reflexivity |]. split; [vm_compute; reflexivity |].
  split; [vm_compute; reflexivity |]. reflexivity.
Qed.

(** C2 (amended). For a savings account with balance [b] and minimum
    balance [m], let [d] be [b - amount] rounded to a [double].
    [withdraw amount] is rejected, leaving the account as it was and
    returning [false], when [amount <= 0] and when [d < m]; in every other
    case, so whenever [amount] is positive and [d >= m], it is accepted: the
    balance becomes [d], exactly one "Withdrawal" transaction is appended and
    [true] is returned.  For a positive amount it is accepted exactly when
    [d < m] does not hold. *)
Theorem savings_withdraw_spec (s : SavingsAccount.t) (amount : float) :
  let b := SavingsAccount.balance s in
  let m := SavingsAccount.minimumBalance s in
  let d := b - amount in
  let r := SavingsAccount.withdraw amount s in
  ((amount <=? 0) = true -> r = (false, s, [InvalidWithdrawalAmount]))
  /\ ((amount <=? 0) = false -> (d <? m) = true ->
      r = (false, s, [MinimumBalanceRequired m]))
  /\ ((amount <=? 0) = false -> (d <? m) = false ->
      fst (fst r) = true
      /\ SavingsAccount.balance (snd (fst r)) = d
      /\ SavingsAccount.transactionHistory (snd (fst r))
         = SavingsAccount.transactionHistory s ++ [Transaction.make "Withdrawal" amount d]
      /\ snd r = [Withdrew amount d])
  /\ ((0 <? amount) = true ->
      (amount <=? 0) = false /\ (fst (fst r) = true <-> (d <? m) = false))
  /\ ((m <=? d) = true -> (d <? m) = false).
Proof.
  cbv zeta. unfold SavingsAccount.withdraw.
  split; [| split; [| split; [| split]]].
  - intro H. rewrite H. reflexivity.
  - intros H H'. rewrite H, H'. reflexivity.
  - intros H H'. rewrite H, H'. repeat split.
  - intro Hpos. pose proof (positive_not_le_zero amount Hpos) as H.
    split; [exact H |]. rewrite H.
    destruct (SavingsAccount.balance s - amount <? SavingsAccount.minimumBalance s);
      cbn; split; congruence.
  - apply le_not_lt.
Qed.

(** ** Withdrawals from a current account *)

(** The claim C3 as the specification words it fails: the limit is tested
    on the difference rounded to a [double].  With a balance of -1e-20 and a
    limit of 1000, a withdrawal of 1000 leaves, exactly, less than -1000; it
    is accepted and the fee is charged. *)
Lemma current_withdraw_beyond_limit :
  let c := CurrentAccount.new "C1" "Bob" (-1e-20) 1000 25 in
  (0 <? 1000) = true
  /\ (exists qb qa ql,
         exact (CurrentAccount.balance c) = Some qb
         /\ exact 1000 = Some qa
         /\ exact (CurrentAccount.overdraftLimit c) = Some ql
         /\ (qb - qa < - ql)%Q)
  /\ fst (fst (CurrentAccount.withdraw 1000 c)) = true
  /\ CurrentAccount.balance (snd (fst (CurrentAccount.withdraw 1000 c))) = -1025
  /\ map Transaction.type
       (CurrentAccount.transactionHistory (snd (fst (CurrentAccount.withdraw 1000 c))))
     = ["Withdrawal"; "Overdraft Fee"].
Proof.
  cbv zeta. split; [reflexivity |]. split; [| repeat split].
  eexists. eexists. eexists.
  split; [vm_compute; reflexivity |]. split; [vm_compute; reflexivity |].
  split; [vm_compute; reflexivity |]. reflexivity.
Qed.

(** C3 (amended). For a current account with balance [b], overdraft limit
    [L] and fee [f], let [d] be [b - amount] rounded to a [double].
    [withdraw amount] is rejected, returning [false] and leaving the account
    as it was, when [amount <= 0] and when [d < -L]; in every other case, so
    whenever [amount] is positive and [d >= -L], it is accepted, and then, if
    [d < 0], the final balance is [d - f] (rounded) and exactly the two
    transactions "Withdrawal" then "Overdraft Fee" are appended, and
    otherwise only one "Withdrawal" is appended and the final balance is [d].
    The fee is not checked against [L]: an accepted withdrawal can end below
    [-L]. *)
Theorem current_withdraw_spec :
  (forall (c : CurrentAccount.t) (amount : float),
      let b := CurrentAccount.balance c in
      let L := CurrentAccount.overdraftLimit c in
      let f := CurrentAccount.overdraftFee c in
      let d := b - amount in
      let r := CurrentAccount.withdraw amount c in
      ((amount <=? 0) = true -> r = (false, c, [InvalidWithdrawalAmount]))
      /\ ((amount <=? 0) = false -> (d <? - L) = true ->
          r = (false, c, [OverdraftLimitExceeded L]))
      /\ ((amount <=? 0) = false -> (d <? - L) = false -> (d <? 0) = true ->
          fst (fst r) = true
          /\ CurrentAccount.balance (snd (fst r)) = d - f
          /\ CurrentAccount.transactionHistory (snd (fst r))
             = CurrentAccount.transactionHistory c
                 ++ [Transaction.make "Withdrawal" amount d;
                     Transaction.make "Overdraft Fee" f (d - f)]
          /\ snd r = [OverdraftFeeApplied f; Withdrew amount (d - f)])
      /\ ((amount <=? 0) = false -> (d <? - L) = false -> (d <? 0) = false ->
          fst (fst r) = true
          /\ CurrentAccount.balance (snd (fst r)) = d
          /\ CurrentAccount.transactionHistory (snd (fst r))
             = CurrentAccount.transactionHistory c
                 ++ [Transaction.make "Withdrawal" amount d]
          /\ snd r = [Withdrew amount d])
      /\ ((0 <? amount) = true -> (amount <=? 0) = false)
      /\ ((- L <=? d) = true -> (d <? - L) = false))
  /\ (exists (c : CurrentAccount.t) (amount : float),
         (0 <? amount) = true
         /\ fst (fst (CurrentAccount.withdraw amount c)) = true
         /\ (CurrentAccount.balance (snd (fst (CurrentAccount.withdraw amount c)))
             <? - CurrentAccount.overdraftLimit c) = true).
Proof.
  split.
  - intros c amount. cbv zeta. unfold CurrentAccount.withdraw.
    split; [| split; [| split; [| split; [| split]]]].
    + intro H. rewrite H. reflexivity.
    + intros H H'. rewrite H, H'. reflexivity.
    + intros H H' H''. rewrite H, H'.
      cbn [CurrentAccount.balance CurrentAccount.on_base CurrentAccount.base
           Account.addTransaction Account.set_balance Account.balance].
      fold (CurrentAccount.balance c). rewrite H''.
      cbn. rewrite <- app_assoc. repeat split.
    + intros H H' H''. rewrite H, H'.
      cbn [CurrentAccount.balance CurrentAccount.on_base CurrentAccount.base
           Account.addTransaction Account.set_balance Account.balance].
      fold (CurrentAccount.balance c). rewrite H''. repeat split.
    + apply positive_not_le_zero.
    + apply le_not_lt.
  - exists (CurrentAccount.new "C1" "Bob" 0 500 25), 500.
    repeat split.
Qed.

(** ** Monthly interest *)

(** The claim C5 as the specification words it fails: every operation of
    [balance * interestRate / 12] and the addition to the balance round to a
    [double].  For a balance of 1000 at the default rate the amount recorded
    is not a twelfth of the exact product, and the balance rises by another
    value than the amount recorded. *)
Lemma interest_is_rounded :
  let s := SavingsAccount.new "S1" "Alice" 1000 0.04 100 in
  let s1 := fst (SavingsAccount.applyInterest s) in
  exists q0 q1 qr qi,
    exact (SavingsAccount.balance s) = Some q0
    /\ exact (SavingsAccount.balance s1) = Some q1
    /\ exact (SavingsAccount.interestRate s) = Some qr
    /\ map (fun tx => exact (Transaction.amount tx))
         (skipn 1 (SavingsAccount.transactionHistory s1)) = [Some qi]
    /\ ~ (qi == q0 * qr / 12)%Q
    /\ ~ (q1 - q0 == qi)%Q
    /\ ~ (q1 == q0 + q0 * qr / 12)%Q.
Proof.
  cbv zeta. eexists. eexists. eexists. eexists.
  split; [vm_compute; reflexivity |]. split; [vm_compute; reflexivity |].
  split; [vm_compute; reflexivity |]. split; [vm_compute; reflexivity |].
  repeat split; discriminate.
Qed.

(** C5 (amended). For a savings account with balance [B] and interest
    rate [R], [applyInterest] computes the interest [B * R / 12] in [double]
    arithmetic (the product rounded, then the quotient rounded), sets the
    balance to [B] plus that interest, rounded, and appends exactly one
    "Interest Credit" transaction whose amount is that interest.  Nothing
    guards the call: a second call computes the interest on the balance the
    first one left. *)
Theorem applyInterest_spec (s : SavingsAccount.t) :
  let B := SavingsAccount.balance s in
  let R := SavingsAccount.interestRate s in
  let s1 := fst (SavingsAccount.applyInterest s) in
  let B1 := B + B * R / 12 in
  let s2 := fst (SavingsAccount.applyInterest s1) in
  SavingsAccount.balance s1 = B1
  /\ SavingsAccount.transactionHistory s1
     = SavingsAccount.transactionHistory s
         ++ [Transaction.make "Interest Credit" (B * R / 12) B1]
  /\ snd (SavingsAccount.applyInterest s) = [InterestApplied (B * R / 12) B1]
  /\ SavingsAccount.interestRate s1 = R
  /\ SavingsAccount.minimumBalance s1 = SavingsAccount.minimumBalance s
  /\ SavingsAccount.balance s2 = B1 + B1 * R / 12
  /\ SavingsAccount.transactionHistory s2
     = SavingsAccount.transactionHistory s
         ++ [Transaction.make "Interest Credit" (B * R / 12) B1;
             Transaction.make "Interest Credit" (B1 * R / 12) (B1 + B1 * R / 12)].
Proof.
  cbn. rewrite <- app_assoc. repeat split.
Qed.

(** ** Construction *)

(** The claim C7 as the specification words it fails on a negative opening
    balance: it is not zero, yet no transaction is recorded. *)
Lemma negative_opening_balance_unrecorded :
  (-50 =? 0) = false
  /\ getBalance (Savings (SavingsAccount.new "S1" "Alice" (-50) 0.04 100)) = -50
  /\ history (Savings (SavingsAccount.new "S1" "Alice" (-50) 0.04 100)) = []
  /\ history (Current (CurrentAccount.new "C1" "Bob" (-50) 1000 25)) = [].
Proof. repeat split. Qed.

Lemma new_balance (accNum name : string) (init : float) :
  Account.balance (Account.new accNum name init) = init.
Proof. unfold Account.new. destruct (0 <? init); reflexivity. Qed.

(** C7 (amended). A savings or a current account constructed with the
    initial balance [B] starts with the balance [B]; when [0 < B] its history
    is exactly one "Initial Deposit" transaction of amount [B] (recording the
    balance [B]); when [B <= 0], so in particular when [B] is zero, and more
    generally whenever [0 < B] does not hold, its history is empty. *)
Theorem new_account_history (accNum name : string) (B p q : float) :
  let s := Savings (SavingsAccount.new accNum name B p q) in
  let c := Current (CurrentAccount.new accNum name B p q) in
  getBalance s = B /\ getBalance c = B
  /\ ((0 <? B) = true ->
      history s = [Transaction.make "Initial Deposit" B B]
      /\ history c = [Transaction.make "Initial Deposit" B B])
  /\ ((B <=? 0) = true -> history s = [] /\ history c = [])
  /\ ((0 <? B) = false -> history s = [] /\ history c = []).
Proof.
  intros s c. subst s c.
  unfold getBalance, history, account_base, SavingsAccount.new, CurrentAccount.new,
    Account.getBalance; cbn [SavingsAccount.base CurrentAccount.base].
  rewrite new_balance. unfold Account.new.
  split; [reflexivity |]. split; [reflexivity |]. split; [| split].
  - intro H. rewrite H. split; reflexivity.
  - intro H. rewrite (le_zero_not_positive B H). split; reflexivity.
  - intro H. rewrite H. split; reflexivity.
Qed.

(** ** Looking an account up *)

Section FindIf.

Context {A : Type}.
Variable p : A -> bool.

Lemma find_if_le (l : list A) : (find_if p l <= List.length l)%nat.
Proof.
  induction l as [| x l IH]; cbn; [lia |].
  destruct (p x); lia.
Qed.

Lemma find_if_end (l : list A) :
  find_if p l = List.length l <-> (forall x, In x l -> p x = false).
Proof.
  induction l as [| x l IH]; cbn.
  - split; [intros _ y [] | reflexivity].
  - destruct (p x) eqn:E.
    + split; [discriminate |].
      intro H. rewrite (H x (or_introl eq_refl)) in E. discriminate.
    + split.
      * intros H y [<- | Hy]; [exact E |].
        apply IH; [lia | exact Hy].
      * intro H. f_equal. apply IH. intros y Hy. apply H. right. exact Hy.
Qed.

Lemma find_if_first (l : list A) :
  (find_if p l < List.length l)%nat ->
  exists x, nth_error l (find_if p l) = Some x /\ p x = true
            /\ forall j y, (j < find_if p l)%nat -> nth_error l j = Some y -> p y = false.
Proof.
  induction l as [| x l IH]; cbn; [lia |].
  destruct (p x) eqn:E; intro Hlt.
  - exists x. repeat split; [exact E |]. intros j y Hj. lia.
  - destruct IH as (z & Hz & Hp & Hbefore); [lia |].
    exists z. repeat split; [exact Hz | exact Hp |].
    intros [| j] y Hj Hy; cbn in Hy.
    + injection Hy as <-. exact E.
    + apply (Hbefore j); [lia | exact Hy].
Qed.

Lemma find_if_app_found (l l' : list A) :
  (find_if p l < List.length l)%nat -> find_if p (l ++ l') = find_if p l.
Proof.
  induction l as [| x l IH]; cbn; [lia |].
  destruct (p x); intro Hlt; [reflexivity |].
  f_equal. apply IH. lia.
Qed.

End FindIf.

Lemma findAccount_Some (accNum : string) (b : Bank.t) (i : nat) :
  Bank.findAccount accNum b = Some i <->
  i = find_if (fun acc => String.eqb (getAccountNumber acc) accNum) (Bank.accounts b)
  /\ (i < List.length (Bank.accounts b))%nat.
Proof.
  unfold Bank.findAccount.
  set (p := fun acc => String.eqb (getAccountNumber acc) accNum).
  pose proof (find_if_le p (Bank.accounts b)) as Hle.
  destruct (Nat.eqb (find_if p (Bank.accounts b)) (List.length (Bank.accounts b))) eqn:E; cbn.
  - apply Nat.eqb_eq in E. split; [discriminate | lia].
  - apply Nat.eqb_neq in E. split.
    + intro H. injection H as <-. split; [reflexivity | lia].
    + intros [-> _]. reflexivity.
Qed.

Lemma findAccount_push_back (accNum : string) (b : Bank.t) (a : AccountObj) (i : nat) :
  Bank.findAccount accNum b = Some i ->
  Bank.findAccount accNum (Bank.push_back a b) = Some i
  /\ Bank.deref i (Bank.push_back a b) = Bank.deref i b.
Proof.
  intro H. apply findAccount_Some in H. destruct H as [Hi Hlt].
  split.
  - apply findAccount_Some. cbn [Bank.push_back Bank.accounts].
    rewrite find_if_app_found by (rewrite <- Hi; exact Hlt).
    split; [exact Hi |]. rewrite length_app. lia.
  - unfold Bank.deref. cbn [Bank.push_back Bank.accounts].
    apply nth_error_app1. exact Hlt.
Qed.

(** C6. [findAccount accNum] answers "not found" exactly when no stored
    account has the number [accNum]; otherwise it answers the position of an
    account whose number is [accNum] such that no account created before it
    has that number.  Numbers may repeat: an account created later under a
    number that is already found never replaces the one found. *)
Theorem findAccount_spec (b : Bank.t) (accNum : string) :
  (Bank.findAccount accNum b = None <->
   forall a, In a (Bank.accounts b) -> getAccountNumber a <> accNum)
  /\ (forall i, Bank.findAccount accNum b = Some i ->
      exists a, Bank.deref i b = Some a
                /\ getAccountNumber a = accNum
                /\ forall j a', (j < i)%nat -> Bank.deref j b = Some a' ->
                                getAccountNumber a' <> accNum)
  /\ (forall i name initialBalance, Bank.findAccount accNum b = Some i ->
      let b1 := fst (Bank.createSavingsAccount accNum name initialBalance b) in
      let b2 := fst (Bank.createCurrentAccount accNum name initialBalance b) in
      Bank.findAccount accNum b1 = Some i /\ Bank.deref i b1 = Bank.deref i b
      /\ Bank.findAccount accNum b2 = Some i /\ Bank.deref i b2 = Bank.deref i b).
Proof.
  set (p := fun acc => String.eqb (getAccountNumber acc) accNum).
  split; [| split].
  - split.
    + intros H a Ha Heq.
      assert (Hend : find_if p (Bank.accounts b) = List.length (Bank.accounts b)).
      { unfold Bank.findAccount in H. fold p in H.
        destruct (Nat.eqb (find_if p (Bank.accounts b)) (List.length (Bank.accounts b))) eqn:E;
          [apply Nat.eqb_eq in E; exact E | discriminate]. }
      pose proof (proj1 (find_if_end p _) Hend a Ha) as Hpa.
      unfold p in Hpa. apply String.eqb_neq in Hpa. contradiction.
    + intro H. unfold Bank.findAccount. fold p.
      assert (Hend : find_if p (Bank.accounts b) = List.length (Bank.accounts b)).
      { apply find_if_end. intros a Ha. apply String.eqb_neq. apply H. exact Ha. }
      rewrite Hend, Nat.eqb_refl. reflexivity.
  - intros i H. apply findAccount_Some in H. fold p in H. destruct H as [-> Hlt].
    destruct (find_if_first p _ Hlt) as (a & Ha & Hpa & Hbefore).
    exists a. repeat split; [exact Ha | apply String.eqb_eq; exact Hpa |].
    intros j a' Hj Ha'. apply String.eqb_neq. exact (Hbefore j a' Hj Ha').
  - intros i name initialBalance H b1 b2.
    destruct (findAccount_push_back accNum b
                (Savings (SavingsAccount.new accNum name initialBalance
                   SavingsAccount.default_intRate SavingsAccount.default_minBalance)) i H)
      as [H1 H2].
    destruct (findAccount_push_back accNum b
                (Current (CurrentAccount.new accNum name initialBalance
                   CurrentAccount.default_overdraftLim CurrentAccount.default_overdraftF)) i H)
      as [H3 H4].
    repeat split; assumption.
Qed.

(** ** Interest for every savings account of the bank *)

Lemma applyInterest_loop_map (accs : list AccountObj) :
  Bank.applyInterest_loop accs
  = (map interest_round accs, flat_map interest_round_output accs).
Proof.
  induction accs as [| a accs IH]; [reflexivity |].
  cbn [Bank.applyInterest_loop map flat_map]. rewrite IH.
  destruct a as [s | c]; reflexivity.
Qed.

(** C9. [applyInterestToSavingsAccounts] keeps the accounts in place and
    runs [applyInterest] once on every savings account, from the first
    created to the last; every current account is left exactly as it was
    (balance, history and all other fields). *)
Theorem applyInterestToSavingsAccounts_spec (b : Bank.t) :
  let b' := fst (Bank.applyInterestToSavingsAccounts b) in
  Bank.bankName b' = Bank.bankName b
  /\ List.length (Bank.accounts b') = List.length (Bank.accounts b)
  /\ (forall i s, Bank.deref i b = Some (Savings s) ->
      Bank.deref i b' = Some (Savings (fst (SavingsAccount.applyInterest s))))
  /\ (forall i c, Bank.deref i b = Some (Current c) ->
      Bank.deref i b' = Some (Current c))
  /\ snd (Bank.applyInterestToSavingsAccounts b)
     = ApplyingMonthlyInterest :: flat_map interest_round_output (Bank.accounts b).
Proof.
  unfold Bank.applyInterestToSavingsAccounts, Bank.deref.
  rewrite applyInterest_loop_map. cbn.
  split; [reflexivity |]. split; [apply length_map |].
  split; [| split; [| reflexivity]].
  - intros i s H. rewrite nth_error_map, H. reflexivity.
  - intros i c H. rewrite nth_error_map, H. reflexivity.
Qed.

(** ** The shape of a history *)

Lemma method_kinds_deposit (amount : float) (a : AccountObj) :
  method_kinds (fst (deposit amount a)) = method_kinds a.
Proof.
  destruct a as [s | c]; cbn [deposit];
    unfold SavingsAccount.deposit, CurrentAccount.deposit;
    destruct (amount <=? 0); reflexivity.
Qed.

Lemma method_kinds_withdraw (amount : float) (a : AccountObj) :
  method_kinds (snd (fst (withdraw amount a))) = method_kinds a.
Proof.
  destruct a as [s | c]; cbn [withdraw];
    unfold SavingsAccount.withdraw, CurrentAccount.withdraw;
    destruct (amount <=? 0); try reflexivity;
    destruct (_ - amount <? _); try reflexivity.
  match goal with |- context [if ?b then _ else _] => destruct b end; reflexivity.
Qed.

(** Extends a decomposition [opening ++ rest] of a history by the
    transactions a method has appended. *)
Ltac extend_rest old Hrest Hkinds :=
  match goal with
  | |- exists rest, ?h ++ ?new = _ ++ rest /\ _ =>
      exists (old ++ new); split;
      [ rewrite Hrest, <- ?app_assoc; reflexivity
      | apply Forall_app; split; [exact Hkinds | repeat constructor; cbn; tauto] ]
  end.

Lemma reachable_history_shape (init : float) (a : AccountObj) :
  reachable init a ->
  exists rest, history a = opening init ++ rest /\ Forall (of_method_kind a) rest.
Proof.
  induction 1 as [accNum name r m | accNum name l f | a amount _ IH | a amount _ IH | s _ IH].
  - exists []. split; [| constructor]. rewrite app_nil_r.
    unfold history, opening; cbn. unfold Account.new. destruct (0 <? init); reflexivity.
  - exists []. split; [| constructor]. rewrite app_nil_r.
    unfold history, opening; cbn. unfold Account.new. destruct (0 <? init); reflexivity.
  - destruct IH as (rest & Hrest & Hkinds). unfold of_method_kind in *.
    rewrite method_kinds_deposit.
    destruct a as [s | c]; unfold history in *; cbn [deposit account_base] in *;
      unfold SavingsAccount.deposit, CurrentAccount.deposit;
      destruct (amount <=? 0); try (exists rest; split; assumption);
      cbn; extend_rest rest Hrest Hkinds.
  - destruct IH as (rest & Hrest & Hkinds). unfold of_method_kind in *.
    rewrite method_kinds_withdraw.
    destruct a as [s | c]; unfold history in *; cbn [withdraw account_base] in *;
      unfold SavingsAccount.withdraw, CurrentAccount.withdraw;
      destruct (amount <=? 0); try (exists rest; split; assumption);
      destruct (_ - amount <? _); try (exists rest; split; assumption);
      try match goal with |- context [if ?b then _ else _] => destruct b end; cbn; rewrite <- ?app_assoc; cbn [app];
      extend_rest rest Hrest Hkinds.
  - destruct IH as (rest & Hrest & Hkinds). unfold of_method_kind in *.
    unfold history in *; cbn in *. extend_rest rest Hrest Hkinds.
Qed.

(** ** Invariants of the balance and the history *)

Lemma replay_app (b : float) (h : list Transaction.t) (tx : Transaction.t) :
  replay b (h ++ [tx]) = apply_change (replay b h) tx.
Proof. unfold replay. rewrite fold_left_app. reflexivity. Qed.

Lemma last_balance_app (b : float) (h : list Transaction.t) (tx : Transaction.t) :
  last_balance b (h ++ [tx]) = Transaction.balanceAfter tx.
Proof.
  unfold last_balance. rewrite map_app. cbn [map]. apply last_last.
Qed.

(** The last element of a non-empty list does not depend on the default. *)
Lemma last_nonempty {A : Type} (x : A) (l : list A) (d d' : A) :
  last (x :: l) d = last (x :: l) d'.
Proof.
  revert x. induction l as [| y l IH]; intro x; [reflexivity |].
  change (last (y :: l) d = last (y :: l) d'). apply IH.
Qed.

Lemma tracks_app (b : float) (h : list Transaction.t) (tx : Transaction.t) :
  tracks b h ->
  Transaction.balanceAfter tx = apply_change (last_balance b h) tx ->
  tracks b (h ++ [tx]).
Proof.
  revert b. induction h as [| t h IH]; intros b Hh Htx.
  - cbn. split; [exact Htx | exact I].
  - destruct Hh as [Ht Hh]. cbn [app tracks]. split; [exact Ht |].
    apply IH; [exact Hh |].
    destruct h as [| t' h]; [exact Htx |].
    rewrite Htx. unfold last_balance. cbn [map].
    rewrite (last_nonempty (Transaction.balanceAfter t') _
               (Transaction.balanceAfter t) b).
    reflexivity.
Qed.

Lemma consistent_new (accNum name : string) (init : float) :
  consistent init (Account.new accNum name init).
Proof.
  unfold Account.new.
  destruct (0 <? init); constructor; cbn; try reflexivity; auto.
Qed.

(** One balance update followed by [addTransaction], as every mutating
    method performs it. *)
Lemma consistent_post (init : float) (a : Account.t) (type : string) (amount v : float) :
  consistent init a ->
  v = apply_change (Account.balance a) (Transaction.make type amount v) ->
  consistent init (Account.addTransaction type amount (Account.set_balance v a)).
Proof.
  intros [Hrep Htr Hlast] Hv.
  constructor; cbn [Account.addTransaction Account.set_balance Account.balance
                      Account.transactionHistory].
  - rewrite replay_app, <- Hrep. exact Hv.
  - apply tracks_app; [exact Htr |].
    cbn [Transaction.balanceAfter]. rewrite <- Hlast. exact Hv.
  - rewrite last_balance_app. reflexivity.
Qed.

Ltac post_step := apply consistent_post; [try assumption | reflexivity].

Lemma reachable_consistent (init : float) (a : AccountObj) :
  reachable init a -> consistent init (account_base a).
Proof.
  induction 1 as [accNum name r m | accNum name l f | a amount _ IH | a amount _ IH | s _ IH].
  - apply consistent_new.
  - apply consistent_new.
  - destruct a as [s | c]; cbn [deposit account_base] in *;
      unfold SavingsAccount.deposit, CurrentAccount.deposit;
      destruct (amount <=? 0); cbn [fst account_base SavingsAccount.base
        SavingsAccount.on_base CurrentAccount.base CurrentAccount.on_base];
      try exact IH; post_step.
  - destruct a as [s | c]; cbn [withdraw account_base] in *.
    + unfold SavingsAccount.withdraw.
      destruct (amount <=? 0); [exact IH |].
      destruct (_ <? _); [exact IH |].
      cbn [fst snd account_base SavingsAccount.base SavingsAccount.on_base].
      post_step.
    + unfold CurrentAccount.withdraw.
      destruct (amount <=? 0); [exact IH |].
      destruct (_ <? - _); [exact IH |].
      destruct (_ <? 0);
        cbn [fst snd account_base CurrentAccount.base CurrentAccount.on_base];
        repeat post_step.
  - cbn [account_base] in *. unfold SavingsAccount.applyInterest.
    cbn [fst account_base SavingsAccount.base SavingsAccount.on_base].
    post_step.
Qed.

(** The claim C1 as the specification words it fails in two ways.  It
    counts an opening balance twice: once as [initialBalance] and once as the
    "Initial Deposit" transaction the constructor records.  And the balance
    is the outcome of [double] additions made one after the other, not the
    exact sum: after deposits of 0.1, 0.2 and 0.3 into an account opened with
    0, the balance differs from the sum of the three amounts. *)
Lemma opening_balance_counted_twice :
  let a := Savings (SavingsAccount.new "S1" "Alice" 1000 0.04 100) in
  let b := run [OpDeposit 0.1; OpDeposit 0.2; OpDeposit 0.3]
             (Current (CurrentAccount.new "C1" "Bob" 0 1000 25)) in
  (reachable 1000 a
   /\ getBalance a = 1000
   /\ exact (getBalance a) = Some (1000 # 1)%Q
   /\ exact 1000 = Some (1000 # 1)%Q
   /\ exact_signed_total (history a) = Some (1000 # 1)%Q
   /\ ~ (1000 == 1000 + 1000)%Q
   /\ (getBalance a =? 1000 + signed_total (history a)) = false)
  /\ (reachable 0 b
      /\ exists qb qs,
           exact (getBalance b) = Some qb
           /\ exact 0 = Some 0%Q
           /\ exact_signed_total (history b) = Some qs
           /\ ~ (qb == 0 + qs)%Q).
Proof.
  cbv zeta. split.
  - split; [apply reach_new_savings |]. repeat split. discriminate.
  - split; [apply run_reachable, reach_new_current |].
    eexists. eexists.
    split; [vm_compute; reflexivity |]. split; [vm_compute; reflexivity |].
    split; [vm_compute; reflexivity |]. discriminate.
Qed.

Lemma running_total_replay (kinds : list string) (b : float) (rest : list Transaction.t) :
  incl kinds ["Deposit"; "Withdrawal"; "Interest Credit"; "Overdraft Fee"] ->
  Forall (fun tx => In (Transaction.type tx) kinds) rest ->
  running_total b rest = replay b rest.
Proof.
  intros Hkinds H. revert b. unfold running_total, replay.
  induction H as [| tx rest Htx _ IH]; intro b; [reflexivity |].
  cbn [fold_left]. rewrite <- IH. f_equal.
  apply Hkinds in Htx. unfold add_signed_amount, apply_change, sign_of_kind, is_type.
  destruct Htx as [<- | [<- | [<- | [<- | []]]]]; reflexivity.
Qed.

Lemma method_kinds_incl (a : AccountObj) :
  incl (method_kinds a) ["Deposit"; "Withdrawal"; "Interest Credit"; "Overdraft Fee"].
Proof.
  destruct a; intros k Hk; cbn in Hk |- *; tauto.
Qed.

Lemma reachable_running_total (init : float) (a : AccountObj) :
  reachable init a ->
  getBalance a = running_total (if 0 <? init then 0 else init) (history a).
Proof.
  intro H. destruct (reachable_consistent init a H) as [Hrep _ _].
  destruct (reachable_history_shape init a H) as (rest & Hrest & Hkinds).
  unfold getBalance, Account.getBalance, history in *. rewrite Hrep, Hrest.
  unfold opening. destruct (0 <? init) eqn:E.
  - change (running_total 0 ([Transaction.make "Initial Deposit" init init] ++ rest))
      with (running_total (0 + init) rest).
    change (replay init ([Transaction.make "Initial Deposit" init init] ++ rest))
      with (replay init rest).
    rewrite (zero_add_positive init E). symmetry.
    exact (running_total_replay _ init rest (method_kinds_incl a) Hkinds).
  - cbn [app]. symmetry.
    exact (running_total_replay _ init rest (method_kinds_incl a) Hkinds).
Qed.

(** C1 (amended). In every state an account constructed with the initial
    balance [init] can reach, its balance is the value obtained from [init]
    by taking the recorded transactions in order, the "Initial Deposit"
    apart, and adding the amount of each deposit and interest credit and
    subtracting the amount of each withdrawal and overdraft fee, every
    addition and subtraction rounded to a [double].  With the "Initial
    Deposit" counted as well, the balance is the running total of the signed
    amounts alone when [0 < init] (the opening balance is then in the
    history), and [init] plus that running total otherwise. *)
Theorem balance_is_opening_plus_changes (init : float) (a : AccountObj) :
  reachable init a ->
  getBalance a = replay init (history a)
  /\ ((0 <? init) = true -> getBalance a = signed_total (history a))
  /\ ((0 <? init) = false -> getBalance a = running_total init (history a)).
Proof.
  intro H. destruct (reachable_consistent init a H) as [Hrep _ _].
  split; [exact Hrep |].
  pose proof (reachable_running_total init a H) as Hsum.
  split; intro E; rewrite E in Hsum; exact Hsum.
Qed.

Lemma balance_is_opening_plus_changes_witness :
  let a := run [OpWithdraw 800; OpApplyInterest; OpDeposit 50]
             (Savings (SavingsAccount.new "S1" "Alice" 1000 0.04 100)) in
  reachable 1000 a
  /\ getBalance a = replay 1000 (history a)
  /\ getBalance a = signed_total (history a)
  /\ getBalance a = 1000 - 800 + (1000 - 800) * 0.04 / 12 + 50.
Proof.
  cbv zeta.
  assert (H : reachable 1000
                (run [OpWithdraw 800; OpApplyInterest; OpDeposit 50]
                   (Savings (SavingsAccount.new "S1" "Alice" 1000 0.04 100))))
    by (apply run_reachable, reach_new_savings).
  split; [exact H |].
  destruct (balance_is_opening_plus_changes 1000 _ H) as (Hrep & Hsum & _).
  split; [exact Hrep |]. split; [exact (Hsum eq_refl) | reflexivity].
Defined.

(** ** Amounts and recorded balances of the transactions *)

Lemma policy_nonneg_deposit (amount : float) (a : AccountObj) :
  policy_nonneg (fst (deposit amount a)) <-> policy_nonneg a.
Proof.
  destruct a as [s | c]; cbn [deposit];
    unfold SavingsAccount.deposit, CurrentAccount.deposit;
    destruct (amount <=? 0); reflexivity.
Qed.

Lemma policy_nonneg_withdraw (amount : float) (a : AccountObj) :
  policy_nonneg (snd (fst (withdraw amount a))) <-> policy_nonneg a.
Proof.
  destruct a as [s | c]; cbn [withdraw];
    unfold SavingsAccount.withdraw, CurrentAccount.withdraw;
    destruct (amount <=? 0); try reflexivity;
    destruct (_ <? _); try reflexivity.
  destruct (_ <? 0); reflexivity.
Qed.

Lemma opened_not_negative_deposit (init amount : float) (a : AccountObj) :
  opened_not_negative init (fst (deposit amount a)) <-> opened_not_negative init a.
Proof.
  destruct a as [s | c]; cbn [deposit];
    unfold SavingsAccount.deposit, CurrentAccount.deposit;
    destruct (amount <=? 0); reflexivity.
Qed.

Lemma opened_not_negative_withdraw (init amount : float) (a : AccountObj) :
  opened_not_negative init (snd (fst (withdraw amount a))) <-> opened_not_negative init a.
Proof.
  destruct a as [s | c]; cbn [withdraw];
    unfold SavingsAccount.withdraw, CurrentAccount.withdraw;
    destruct (amount <=? 0); try reflexivity;
    destruct (_ <? _); try reflexivity.
  destruct (_ <? 0); reflexivity.
Qed.

Lemma guarded_amounts (init : float) (a : AccountObj) :
  reachable init a -> Forall guarded_amount (history a).
Proof.
  induction 1 as [accNum name r m | accNum name l f | a amount _ IH | a amount _ IH | s _ IH].
  - unfold history; cbn. unfold Account.new.
    destruct (0 <? init) eqn:E; cbn; constructor; [| constructor].
    split; [intros _; exact E | discriminate].
  - unfold history; cbn. unfold Account.new.
    destruct (0 <? init) eqn:E; cbn; constructor; [| constructor].
    split; [intros _; exact E | discriminate].
  - destruct a as [s | c]; unfold history in *; cbn [deposit account_base] in *;
      unfold SavingsAccount.deposit, CurrentAccount.deposit;
      destruct (amount <=? 0) eqn:E; try exact IH;
      cbn; apply Forall_app; (split; [exact IH |]);
      constructor; [| constructor | | constructor];
      (split; [discriminate | intros _; exact E]).
  - destruct a as [s | c]; unfold history in *; cbn [withdraw account_base] in *.
    + unfold SavingsAccount.withdraw.
      destruct (amount <=? 0) eqn:E; [exact IH |].
      destruct (_ <? _); [exact IH |].
      cbn. apply Forall_app. split; [exact IH |].
      constructor; [| constructor]. split; [discriminate | intros _; exact E].
    + unfold CurrentAccount.withdraw.
      destruct (amount <=? 0) eqn:E; [exact IH |].
      destruct (_ <? - _); [exact IH |].
      destruct (_ <? 0); cbn; repeat (apply Forall_app; split); try exact IH;
        (constructor; [| constructor]); split; try discriminate; intros _; exact E.
  - unfold history in *; cbn in *. apply Forall_app. split; [exact IH |].
    constructor; [| constructor]. split; discriminate.
Qed.

Lemma amounts_not_negative_reachable (init : float) (a : AccountObj) :
  reachable init a -> policy_nonneg a -> opened_not_negative init a ->
  Forall amount_not_negative (history a) /\ savings_balance_not_negative a.
Proof.
  induction 1 as [accNum name r m | accNum name l f | a amount _ IH | a amount _ IH | s _ IH].
  - intros _ Hinit. cbn in Hinit. split.
    + unfold history; cbn. unfold Account.new.
      destruct (0 <? init) eqn:E; cbn; repeat constructor.
      apply positive_not_negative. exact E.
    + unfold savings_balance_not_negative, SavingsAccount.balance; cbn.
      rewrite new_balance. exact Hinit.
  - intros _ _. split; [| exact I].
    unfold history; cbn. unfold Account.new.
    destruct (0 <? init) eqn:E; cbn; repeat constructor.
    apply positive_not_negative. exact E.
  - intros Hp Ho. apply policy_nonneg_deposit in Hp.
    apply opened_not_negative_deposit in Ho. destruct (IH Hp Ho) as [Hh Hb].
    destruct a as [s | c]; unfold history in *; cbn [deposit account_base] in *;
      unfold SavingsAccount.deposit, CurrentAccount.deposit;
      destruct (amount <=? 0) eqn:E; try (split; assumption);
      apply not_le_zero_not_negative in E; cbn; (split; [| try exact I]);
      try (apply Forall_app; split; [exact Hh | repeat constructor; exact E]).
    apply not_negative_signed. apply add_signed; apply not_negative_signed; assumption.
  - intros Hp Ho. apply policy_nonneg_withdraw in Hp.
    apply opened_not_negative_withdraw in Ho. destruct (IH Hp Ho) as [Hh Hb].
    destruct a as [s | c]; unfold history in *; cbn [withdraw account_base] in *.
    + unfold SavingsAccount.withdraw.
      destruct (amount <=? 0) eqn:E; [split; assumption |].
      destruct (_ <? _) eqn:E'; [split; assumption |].
      apply not_le_zero_not_negative in E. cbn. split.
      * apply Forall_app; split; [exact Hh | repeat constructor; exact E].
      * fold (SavingsAccount.balance s).
        destruct (SavingsAccount.balance s - amount <? 0) eqn:E0; [| reflexivity].
        destruct Hp as [_ Hm].
        rewrite (negative_lt_nonneg _ _ E0 Hm) in E'. discriminate.
    + unfold CurrentAccount.withdraw.
      destruct (amount <=? 0) eqn:E; [split; assumption |].
      destruct (_ <? - _); [split; assumption |].
      apply not_le_zero_not_negative in E. cbn in Hp.
      cbn. match goal with |- context [if ?b then _ else _] => destruct b end;
      apply nonneg_not_negative in Hp; cbn; (split; [| exact I]);
        repeat (apply Forall_app; split); try exact Hh; repeat constructor;
        assumption.
  - intros Hp Ho. destruct (IH Hp Ho) as [Hh Hb]. destruct Hp as [Hr _].
    cbn in Hb, Hr. apply not_negative_signed in Hb.
    destruct (interest_signed false _ _ Hb Hr) as [Hi Hs].
    apply not_negative_signed in Hi. apply not_negative_signed in Hs.
    unfold history in *; cbn in *. split; [| exact Hs].
    apply Forall_app. split; [exact Hh | repeat constructor; exact Hi].
Qed.

(** The accounts the bank creates carry policy parameters that are not
    negative. *)
Lemma bank_policy_nonneg (accNum name : string) (init : float) :
  policy_nonneg (Savings (SavingsAccount.new accNum name init
                            SavingsAccount.default_intRate
                            SavingsAccount.default_minBalance))
  /\ policy_nonneg (Current (CurrentAccount.new accNum name init
                               CurrentAccount.default_overdraftLim
                               CurrentAccount.default_overdraftF)).
Proof. cbn. repeat split. Qed.

(** The claim C8 as the specification words it fails in two ways.  A savings
    account opened with a negative balance earns a negative monthly
    interest, recorded as the amount of an "Interest Credit" transaction;
    the bank reaches that state by creating the account and applying
    interest.  And a deposit of NaN passes the guard [amount <= 0] and is
    recorded: its amount is not [>= 0]. *)
Lemma negative_interest_recorded :
  let a := Savings (fst (SavingsAccount.applyInterest
                           (SavingsAccount.new "S1" "Alice" (-1200) 0.04 100))) in
  let b := fst (Bank.applyInterestToSavingsAccounts
                  (fst (Bank.createSavingsAccount "S1" "Alice" (-1200)
                          (Bank.new "ABC Bank")))) in
  let n := fst (deposit nan (Savings (SavingsAccount.new "S2" "Nora" 0 0.04 100))) in
  (reachable (-1200) a
   /\ Bank.deref 0 b = Some a
   /\ exists tx, In tx (history a)
                 /\ Transaction.type tx = "Interest Credit"
                 /\ Transaction.amount tx = -4
                 /\ (Transaction.amount tx <? 0) = true
                 /\ (0 <=? Transaction.amount tx) = false)
  /\ (reachable 0 n
      /\ exists tx, In tx (history n)
                    /\ Transaction.type tx = "Deposit"
                    /\ Transaction.amount tx = nan
                    /\ (0 <=? Transaction.amount tx) = false).
Proof.
  cbv zeta. split.
  - split; [apply reach_applyInterest, reach_new_savings |].
    split; [reflexivity |].
    exists (Transaction.make "Interest Credit" (-1200 * 0.04 / 12)
              (-1200 + -1200 * 0.04 / 12)).
    split; [left; reflexivity |]. repeat split.
  - split; [apply reach_deposit, reach_new_savings |].
    exists (Transaction.make "Deposit" nan (0 + nan)).
    split; [left; reflexivity |]. repeat split.
Qed.

(** C8 (amended). In every state an account constructed with the initial
    balance [init] can reach: every transaction records as [balanceAfter]
    the [double] obtained by applying its change to the balance before it
    (one rounded addition or subtraction), the last one recording the
    current balance; every "Initial Deposit" has an amount [> 0] and no
    "Deposit" or "Withdrawal" has an amount [<= 0]; and, when the policy
    parameters of the account (rate and minimum balance, or overdraft fee)
    are [>= 0] and, for a savings account, [init] is not below zero, no
    transaction has an amount below zero. *)
Theorem transactions_record_balances (init : float) (a : AccountObj) :
  reachable init a ->
  tracks init (history a)
  /\ getBalance a = last_balance init (history a)
  /\ Forall guarded_amount (history a)
  /\ (policy_nonneg a -> opened_not_negative init a ->
      Forall amount_not_negative (history a)).
Proof.
  intro H. destruct (reachable_consistent init a H) as [_ Htr Hlast].
  split; [exact Htr |]. split; [exact Hlast |].
  split; [exact (guarded_amounts init a H) |].
  intros Hp Hinit. exact (proj1 (amounts_not_negative_reachable init a H Hp Hinit)).
Qed.

Lemma transactions_record_balances_witness :
  let a := run [OpWithdraw 300] (Current (CurrentAccount.new "C1" "Bob" (-10) 500 25)) in
  reachable (-10) a
  /\ history a = [Transaction.make "Withdrawal" 300 (-310);
                  Transaction.make "Overdraft Fee" 25 (-335)]
  /\ tracks (-10) (history a)
  /\ getBalance a = last_balance (-10) (history a)
  /\ Forall guarded_amount (history a)
  /\ Forall amount_not_negative (history a).
Proof.
  cbv zeta.
  assert (H : reachable (-10)
                (run [OpWithdraw 300]
                   (Current (CurrentAccount.new "C1" "Bob" (-10) 500 25))))
    by (apply run_reachable, reach_new_current).
  split; [exact H |]. split; [reflexivity |].
  destruct (transactions_record_balances (-10) _ H) as (Htr & Hlast & Hpos & Hnn).
  repeat split; try assumption.
  apply Hnn; [reflexivity | exact I].
Defined.

(** ** Further properties of the operations *)

(** X1. Every operation keeps the number, the holder, the dynamic type and the
    policy parameters of the account, and only ever appends to its
    history. *)
Theorem step_frame (op : Op) (a : AccountObj) :
  getAccountNumber (step op a) = getAccountNumber a
  /\ getHolderName (step op a) = getHolderName a
  /\ getAccountType (step op a) = getAccountType a
  /\ policy (step op a) = policy a
  /\ exists appended, history (step op a) = history a ++ appended.
Proof.
  destruct op as [amount | amount |]; destruct a as [s | c]; cbn [step deposit withdraw];
    unfold applyInterest, SavingsAccount.deposit, CurrentAccount.deposit,
      SavingsAccount.withdraw, CurrentAccount.withdraw, SavingsAccount.applyInterest;
    try destruct (amount <=? 0); try destruct (_ - amount <? _);
    try match goal with |- context [if ?b then _ else _] => destruct b end;
    cbn; repeat split;
    first [ exists []; symmetry; apply app_nil_r
          | eexists; reflexivity
          | eexists; rewrite <- app_assoc; reflexivity ].
Qed.

(** X2. A withdrawal either fails, returning [false] and changing nothing, or
    commits, returning [true] for an amount that is not [<= 0] and appending
    the "Withdrawal" transaction, which records the [double]
    [balance - amount], followed by at most one more. *)
Theorem withdraw_all_or_nothing (amount : float) (a : AccountObj) :
  let r := withdraw amount a in
  (fst (fst r) = false /\ snd (fst r) = a)
  \/ (fst (fst r) = true /\ (amount <=? 0) = false
      /\ exists rest,
          history (snd (fst r))
          = history a
              ++ Transaction.make "Withdrawal" amount (getBalance a - amount) :: rest
          /\ (List.length rest <= 1)%nat).
Proof.
  destruct a as [s | c]; cbn [withdraw];
    unfold SavingsAccount.withdraw, CurrentAccount.withdraw;
    destruct (amount <=? 0) eqn:E; try (left; split; reflexivity);
    destruct (_ - amount <? _); try (left; split; reflexivity);
    try match goal with |- context [if ?b then _ else _] => destruct b end;
    right; (split; [reflexivity |]); (split; [reflexivity |]).
  - exists []. split; [reflexivity | cbn; lia].
  - eexists [_]. split; [cbn; rewrite <- app_assoc; reflexivity | cbn; lia].
  - exists []. split; [reflexivity | cbn; lia].
Qed.

(** ** The scenarios of the specification, run on the model *)

Example scenario_savings_alice :
  let s0 := SavingsAccount.new "S1" "Alice" 1000 0.04 100 in
  let s1 := snd (fst (SavingsAccount.withdraw 800 s0)) in
  let s2 := fst (SavingsAccount.applyInterest s1) in
  SavingsAccount.withdraw 950 s0 = (false, s0, [MinimumBalanceRequired 100])
  /\ fst (fst (SavingsAccount.withdraw 800 s0)) = true
  /\ SavingsAccount.balance s1 = 200
  /\ SavingsAccount.balance s2 = 200 + 200 * 0.04 / 12
  /\ List.length (SavingsAccount.transactionHistory s2) = 3%nat.
Proof. cbv zeta. repeat split. Qed.

Example scenario_current_bob :
  let c0 := CurrentAccount.new "C1" "Bob" 0 500 25 in
  let c1 := snd (fst (CurrentAccount.withdraw 300 c0)) in
  fst (fst (CurrentAccount.withdraw 300 c0)) = true
  /\ CurrentAccount.balance c1 = -325
  /\ map Transaction.type (CurrentAccount.transactionHistory c1)
     = ["Withdrawal"; "Overdraft Fee"]
  /\ CurrentAccount.withdraw 200 c1 = (false, c1, [OverdraftLimitExceeded 500]).
Proof. cbv zeta. repeat split. Qed.

Example scenario_duplicate_numbers :
  let b0 := Bank.new "ABC Bank" in
  let b1 := fst (Bank.createSavingsAccount "A1" "Alice" 1000 b0) in
  let b2 := fst (Bank.createCurrentAccount "A1" "Bob" 50 b1) in
  Bank.findAccount "A1" b0 = None
  /\ Bank.findAccount "A1" b2 = Some 0%nat
  /\ option_map getAccountType (Bank.deref 0 b2) = Some "Savings"
  /\ option_map getAccountType (Bank.deref 1 b2) = Some "Current"
  /\ option_map getAccountNumber (Bank.deref 1 b2) = Some "A1".
Proof. cbv zeta. repeat split. Qed.

(** * Further properties: the registry, the displays and the menu loop *)

(** ** Creating accounts and looking them up *)

Lemma find_if_snoc {A : Type} (p : A -> bool) (l : list A) (x : A) :
  find_if p (l ++ [x])
  = if Nat.ltb (find_if p l) (List.length l) then find_if p l
    else if p x then List.length l else S (List.length l).
Proof.
  induction l as [| y l IH]; cbn [find_if app List.length].
  - destruct (p x); reflexivity.
  - destruct (p y); [reflexivity |]. rewrite IH.
    destruct (Nat.ltb_spec (find_if p l) (List.length l)),
             (Nat.ltb_spec (S (find_if p l)) (S (List.length l)));
      try lia; try reflexivity.
    destruct (p x); reflexivity.
Qed.

Lemma find_if_map {A B : Type} (f : A -> B) (p : B -> bool) (l : list A) :
  find_if p (map f l) = find_if (fun x => p (f x)) l.
Proof.
  induction l as [| x l IH]; cbn; [reflexivity |].
  destruct (p (f x)); [reflexivity | f_equal; exact IH].
Qed.

Lemma find_if_ext {A : Type} (p q : A -> bool) (l : list A) :
  (forall x, p x = q x) -> find_if p l = find_if q l.
Proof.
  intro H. induction l as [| x l IH]; cbn; [reflexivity |].
  rewrite H, IH. reflexivity.
Qed.

Lemma findAccount_None (accNum : string) (b : Bank.t) :
  Bank.findAccount accNum b = None <->
  find_if (fun acc => String.eqb (getAccountNumber acc) accNum) (Bank.accounts b)
  = List.length (Bank.accounts b).
Proof.
  unfold Bank.findAccount.
  destruct (Nat.eqb _ _) eqn:E; cbn.
  - apply Nat.eqb_eq in E. split; [intros _; exact E | reflexivity].
  - apply Nat.eqb_neq in E. split; [discriminate | intro H; contradiction].
Qed.

Lemma findAccount_push_back_any (accNum : string) (b : Bank.t) (a : AccountObj) :
  Bank.findAccount accNum (Bank.push_back a b)
  = match Bank.findAccount accNum b with
    | Some p => Some p
    | None => if String.eqb (getAccountNumber a) accNum
              then Some (List.length (Bank.accounts b)) else None
    end.
Proof.
  destruct (Bank.findAccount accNum b) as [p |] eqn:E.
  - apply (findAccount_push_back accNum b a p E).
  - apply findAccount_None in E.
    unfold Bank.findAccount. cbn [Bank.push_back Bank.accounts].
    rewrite find_if_snoc, E, Nat.ltb_irrefl, length_app. cbn [List.length].
    destruct (String.eqb (getAccountNumber a) accNum).
    + replace (Nat.eqb _ _) with false; [reflexivity |].
      symmetry. apply Nat.eqb_neq. lia.
    + replace (Nat.eqb _ _) with true; [reflexivity |].
      symmetry. apply Nat.eqb_eq. lia.
Qed.

Lemma new_accountNumber (accNum name : string) (init : float) :
  Account.accountNumber (Account.new accNum name init) = accNum.
Proof. unfold Account.new. destruct (0 <? init); reflexivity. Qed.

Lemma new_holderName (accNum name : string) (init : float) :
  Account.holderName (Account.new accNum name init) = name.
Proof. unfold Account.new. destruct (0 <? init); reflexivity. Qed.

Lemma deref_push_back_new (a : AccountObj) (b : Bank.t) :
  Bank.deref (List.length (Bank.accounts b)) (Bank.push_back a b) = Some a.
Proof.
  unfold Bank.deref. cbn [Bank.push_back Bank.accounts].
  rewrite nth_error_app2 by lia. rewrite Nat.sub_diag. reflexivity.
Qed.

(** X4. After an account is created under a number, looking the number up
    always finds an account: the one found before if there was one, and
    otherwise the new account, which sits last, has the dynamic type asked
    for, the holder name given and the initial balance as its balance. *)
Theorem create_then_find (b : Bank.t) (accNum name : string) (init : float) :
  let b1 := fst (Bank.createSavingsAccount accNum name init b) in
  let b2 := fst (Bank.createCurrentAccount accNum name init b) in
  let n := List.length (Bank.accounts b) in
  let found := match Bank.findAccount accNum b with Some p => p | None => n end in
  Bank.findAccount accNum b1 = Some found
  /\ Bank.findAccount accNum b2 = Some found
  /\ (exists s, Bank.deref n b1 = Some (Savings s)
                /\ getAccountNumber (Savings s) = accNum
                /\ getHolderName (Savings s) = name
                /\ getBalance (Savings s) = init)
  /\ (exists c, Bank.deref n b2 = Some (Current c)
                /\ getAccountNumber (Current c) = accNum
                /\ getHolderName (Current c) = name
                /\ getBalance (Current c) = init).
Proof.
  cbv zeta. unfold Bank.createSavingsAccount, Bank.createCurrentAccount. cbn [fst].
  rewrite !findAccount_push_back_any.
  unfold getAccountNumber at 1 2, Account.getAccountNumber; cbn [account_base
    SavingsAccount.new SavingsAccount.base CurrentAccount.new CurrentAccount.base].
  rewrite !new_accountNumber, String.eqb_refl.
  split; [destruct (Bank.findAccount accNum b); reflexivity |].
  split; [destruct (Bank.findAccount accNum b); reflexivity |].
  split; eexists; (split; [apply deref_push_back_new |]);
    unfold getAccountNumber, getHolderName, getBalance, Account.getAccountNumber,
      Account.getHolderName, Account.getBalance;
    cbn [account_base SavingsAccount.new SavingsAccount.base CurrentAccount.new
         CurrentAccount.base];
    rewrite new_accountNumber, new_holderName, new_balance; repeat split.
Qed.

(** X5. Creating an account under a number changes no other lookup and no
    stored account: every other number is found where it was, every account
    already stored stays at its position as it is, and the registry grows by
    exactly one account. *)
Theorem create_keeps_the_rest (b : Bank.t) (accNum name : string) (init : float) :
  let b1 := fst (Bank.createSavingsAccount accNum name init b) in
  let b2 := fst (Bank.createCurrentAccount accNum name init b) in
  (forall other, other <> accNum ->
     Bank.findAccount other b1 = Bank.findAccount other b
     /\ Bank.findAccount other b2 = Bank.findAccount other b)
  /\ (forall p a, Bank.deref p b = Some a ->
        Bank.deref p b1 = Some a /\ Bank.deref p b2 = Some a)
  /\ List.length (Bank.accounts b1) = S (List.length (Bank.accounts b))
  /\ List.length (Bank.accounts b2) = S (List.length (Bank.accounts b)).
Proof.
  cbv zeta. unfold Bank.createSavingsAccount, Bank.createCurrentAccount. cbn [fst].
  split; [| split; [| split]].
  - intros other Hne. rewrite !findAccount_push_back_any.
    unfold getAccountNumber, Account.getAccountNumber; cbn [account_base
      SavingsAccount.new SavingsAccount.base CurrentAccount.new CurrentAccount.base].
    rewrite !new_accountNumber.
    assert (E : String.eqb accNum other = false)
      by (apply String.eqb_neq; intro Heq; apply Hne; symmetry; exact Heq).
    rewrite E. destruct (Bank.findAccount other b); split; reflexivity.
  - intros p a H. unfold Bank.deref in *. cbn [Bank.push_back Bank.accounts].
    assert (Hp : (p < List.length (Bank.accounts b))%nat)
      by (apply nth_error_Some; rewrite H; discriminate).
    rewrite !nth_error_app1 by exact Hp. split; exact H.
  - cbn [Bank.push_back Bank.accounts]. rewrite length_app. cbn. lia.
  - cbn [Bank.push_back Bank.accounts]. rewrite length_app. cbn. lia.
Qed.

(** ** Interest and the registry *)

Lemma interest_round_number (a : AccountObj) :
  getAccountNumber (interest_round a) = getAccountNumber a.
Proof. destruct a; reflexivity. Qed.

(** X6. Applying interest to the savings accounts changes no lookup: every
    number is found at the position where it was found before (or stays not
    found), and every account keeps its number, holder and dynamic type. *)
Theorem applyInterest_keeps_lookups (b : Bank.t) (accNum : string) :
  let b' := fst (Bank.applyInterestToSavingsAccounts b) in
  Bank.findAccount accNum b' = Bank.findAccount accNum b
  /\ (forall p a, Bank.deref p b = Some a ->
        exists a', Bank.deref p b' = Some a'
                   /\ getAccountNumber a' = getAccountNumber a
                   /\ getHolderName a' = getHolderName a
                   /\ getAccountType a' = getAccountType a).
Proof.
  cbv zeta. unfold Bank.applyInterestToSavingsAccounts.
  rewrite applyInterest_loop_map. cbn [fst]. split.
  - unfold Bank.findAccount. cbn [Bank.accounts].
    rewrite find_if_map, length_map.
    rewrite (find_if_ext _ (fun acc => String.eqb (getAccountNumber acc) accNum));
      [reflexivity |].
    intro a. rewrite interest_round_number. reflexivity.
  - intros p a H. unfold Bank.deref in *. cbn [Bank.accounts].
    rewrite nth_error_map, H. cbn. eexists. split; [reflexivity |].
    destruct a; repeat split.
Qed.

(** X7. In a bank without savings accounts (an empty bank included) the
    interest run changes nothing and writes only its heading. *)
Theorem applyInterest_without_savings (b : Bank.t) :
  Forall (fun a => dynamic_cast_SavingsAccount a = None) (Bank.accounts b) ->
  Bank.applyInterestToSavingsAccounts b = (b, [ApplyingMonthlyInterest]).
Proof.
  intro H. unfold Bank.applyInterestToSavingsAccounts.
  assert (E : Bank.applyInterest_loop (Bank.accounts b) = (Bank.accounts b, [])).
  { induction H as [| a accs Ha _ IH]; [reflexivity |].
    cbn [Bank.applyInterest_loop]. rewrite Ha, IH. reflexivity. }
  rewrite E. destruct b; reflexivity.
Qed.

Lemma applyInterest_without_savings_witness :
  let b := fst (Bank.createCurrentAccount "C1" "Bob" 250 (Bank.new "ABC Bank")) in
  Bank.applyInterestToSavingsAccounts b = (b, [ApplyingMonthlyInterest])
  /\ Bank.applyInterestToSavingsAccounts (Bank.new "ABC Bank")
     = (Bank.new "ABC Bank", [ApplyingMonthlyInterest]).
Proof.
  cbv zeta. split.
  - apply applyInterest_without_savings. repeat constructor.
  - apply applyInterest_without_savings. constructor.
Defined.

(** ** How the operations on one account compose *)


(** X8. A deposit followed by a withdrawal of the same amount is not always
    accepted: on a savings account at its minimum balance of 100, a deposit
    of 28.01 raises the balance to the [double] [100 + 28.01], and the
    withdrawal of 28.01 is refused, because the [double]
    [100 + 28.01 - 28.01] is below 100.  The account keeps the deposit. *)
Theorem deposit_then_withdraw_can_be_refused :
  let s := SavingsAccount.new "S1" "Alice" 100 0.04 100 in
  let s1 := fst (SavingsAccount.deposit 28.01 s) in
  (SavingsAccount.minimumBalance s <=? SavingsAccount.balance s) = true
  /\ (0 <? 28.01) = true
  /\ SavingsAccount.balance s1 = 100 + 28.01
  /\ SavingsAccount.withdraw 28.01 s1 = (false, s1, [MinimumBalanceRequired 100])
  /\ (100 + 28.01 - 28.01 <? 100) = true
  /\ List.length (SavingsAccount.transactionHistory s1) = 2%nat.
Proof. cbv zeta. repeat split. Qed.

(** X9. A savings account whose rate and minimum balance are [>= 0] and
    whose initial balance is not below zero never has a balance below zero,
    whatever deposits, withdrawals and interest runs it goes through (in
    [double] arithmetic the balance can become infinite or NaN, but not
    negative). *)
Theorem savings_never_negative (init : float) (s : SavingsAccount.t) :
  reachable init (Savings s) ->
  (0 <=? SavingsAccount.interestRate s) = true ->
  (0 <=? SavingsAccount.minimumBalance s) = true ->
  (init <? 0) = false ->
  (SavingsAccount.balance s <? 0) = false.
Proof.
  intros H Hr Hm Hinit.
  exact (proj2 (amounts_not_negative_reachable init (Savings s) H (conj Hr Hm) Hinit)).
Qed.

Lemma savings_never_negative_witness :
  let s0 := SavingsAccount.new "S1" "Alice" 1000 0.04 100 in
  let s := fst (SavingsAccount.applyInterest (snd (fst (SavingsAccount.withdraw 900 s0)))) in
  SavingsAccount.balance s = 100 + 100 * 0.04 / 12
  /\ (SavingsAccount.balance s <? 0) = false.
Proof.
  cbv zeta. split; [reflexivity |].
  apply (savings_never_negative 1000).
  - apply reach_applyInterest.
    exact (reach_withdraw 1000 (Savings (SavingsAccount.new "S1" "Alice" 1000 0.04 100))
             900 (reach_new_savings 1000 "S1" "Alice" 0.04 100)).
  - reflexivity.
  - reflexivity.
  - reflexivity.
Defined.

(** X10. With a rate that is [>= 0], [applyInterest] never takes the balance
    across zero: a balance that is not below zero is not below zero
    afterwards, and a balance that is not above zero is not above zero
    afterwards (what is recorded as an interest credit is then a charge).
    This holds of the rounded [double] operations, infinities and NaN
    included. *)
Theorem interest_never_crosses_zero (s : SavingsAccount.t) :
  (0 <=? SavingsAccount.interestRate s) = true ->
  let B := SavingsAccount.balance s in
  let B' := SavingsAccount.balance (fst (SavingsAccount.applyInterest s)) in
  ((B <? 0) = false -> (B' <? 0) = false)
  /\ ((0 <? B) = false -> (0 <? B') = false).
Proof.
  intro Hr. cbn. fold (SavingsAccount.balance s). split; intro HB.
  - apply not_negative_signed. apply not_negative_signed in HB.
    exact (proj2 (interest_signed false _ _ HB Hr)).
  - apply not_positive_signed. apply not_positive_signed in HB.
    exact (proj2 (interest_signed true _ _ HB Hr)).
Qed.

Lemma interest_never_crosses_zero_witness :
  let s := SavingsAccount.new "S1" "Alice" (-1200) 0.04 100 in
  SavingsAccount.balance (fst (SavingsAccount.applyInterest s)) = -1204
  /\ (0 <? SavingsAccount.balance (fst (SavingsAccount.applyInterest s))) = false.
Proof.
  cbv zeta. split; [reflexivity |].
  apply (interest_never_crosses_zero (SavingsAccount.new "S1" "Alice" (-1200) 0.04 100));
    reflexivity.
Defined.

(** ** The kinds of transaction in a history *)

(** X11. In every reachable state the history of an account is what the
    constructor left (one "Initial Deposit" when the initial balance is
    positive, nothing otherwise) followed by transactions of the kinds its
    methods record: "Deposit", "Withdrawal" and, on a savings account,
    "Interest Credit", on a current account, "Overdraft Fee".  No other kind
    occurs and "Initial Deposit" occurs nowhere but first. *)
Theorem history_shape (init : float) (a : AccountObj) :
  reachable init a ->
  exists rest,
    history a = opening init ++ rest
    /\ Forall (of_method_kind a) rest
    /\ Forall (fun tx => Transaction.type tx <> "Initial Deposit") rest.
Proof.
  intro H. destruct (reachable_history_shape init a H) as (rest & Hrest & Hkinds).
  exists rest. split; [exact Hrest |]. split; [exact Hkinds |].
  apply Forall_forall. intros tx Hin Hty.
  pose proof (proj1 (Forall_forall _ _) Hkinds tx Hin) as Hk.
  unfold of_method_kind in Hk. rewrite Hty in Hk.
  destruct a; cbn in Hk; intuition discriminate.
Qed.

Lemma history_shape_witness :
  let a := run [OpDeposit 20; OpWithdraw 300]
             (Current (CurrentAccount.new "C1" "Bob" 100 500 25)) in
  reachable 100 a
  /\ map Transaction.type (history a)
     = ["Initial Deposit"; "Deposit"; "Withdrawal"; "Overdraft Fee"]
  /\ exists rest,
       history a = opening 100 ++ rest
       /\ Forall (of_method_kind a) rest
       /\ Forall (fun tx => Transaction.type tx <> "Initial Deposit") rest.
Proof.
  cbv zeta.
  assert (H : reachable 100
                (run [OpDeposit 20; OpWithdraw 300]
                   (Current (CurrentAccount.new "C1" "Bob" 100 500 25))))
    by (apply run_reachable, reach_new_current).
  split; [exact H |]. split; [reflexivity |].
  exact (history_shape 100 _ H).
Defined.

(** ** What the displays show *)

Lemma displayTransactionHistory_nonempty (a : Account.t) :
  Account.transactionHistory a <> [] ->
  Account.displayTransactionHistory a
  = HistoryHeader (Account.accountNumber a)
      :: map Transaction.display (Account.transactionHistory a).
Proof.
  unfold Account.displayTransactionHistory.
  destruct (Account.transactionHistory a); [intro H; contradiction | reflexivity].
Qed.

(** X12. The history display of an account in a reachable state agrees with
    its balance.  It says "No transactions found." exactly when the history
    is empty, and then the balance is the initial balance, which is not
    [> 0]; otherwise it has one line per transaction after the heading
    and the balance on its last line is the current balance. *)
Theorem history_display_agrees (init : float) (a : AccountObj) :
  reachable init a ->
  let shown := displayTransactionHistory a in
  (In NoTransactionsFound shown <-> history a = [])
  /\ (history a = [] -> getBalance a = init /\ (0 <? init) = false)
  /\ (history a <> [] ->
      List.length shown = S (List.length (history a))
      /\ exists type amount,
           last shown NoTransactionsFound = TransactionLine type amount (getBalance a)).
Proof.
  intro H. cbv zeta.
  destruct (reachable_consistent init a H) as [_ _ Hlast].
  destruct (reachable_history_shape init a H) as (rest & Hrest & _).
  unfold displayTransactionHistory, history, getBalance, Account.getBalance in *.
  set (acc := account_base a) in *. split; [| split].
  - split.
    + intro Hin. destruct (Account.transactionHistory acc) eqn:E; [reflexivity |].
      rewrite displayTransactionHistory_nonempty in Hin by (rewrite E; discriminate).
      destruct Hin as [Hin | Hin]; [discriminate |].
      apply in_map_iff in Hin. destruct Hin as (tx & Htx & _). discriminate.
    + intro E. unfold Account.displayTransactionHistory. rewrite E. right. left. reflexivity.
  - intro E. rewrite E in Hlast, Hrest. split; [exact Hlast |].
    unfold opening in Hrest. destruct (0 <? init) eqn:E0; [discriminate |].
    reflexivity.
  - intro Hne. rewrite displayTransactionHistory_nonempty by exact Hne.
    split; [cbn; rewrite length_map; reflexivity |].
    destruct (exists_last Hne) as (h & tx & E). rewrite E in Hlast |- *.
    rewrite last_balance_app in Hlast.
    exists (Transaction.type tx), (Transaction.amount tx).
    rewrite map_app. cbn [map].
    change (HistoryHeader (Account.accountNumber acc)
              :: map Transaction.display h ++ [Transaction.display tx])
      with ((HistoryHeader (Account.accountNumber acc) :: map Transaction.display h)
              ++ [Transaction.display tx]).
    rewrite last_last. unfold Transaction.display. rewrite Hlast. reflexivity.
Qed.

Lemma history_display_agrees_witness :
  let a := run [OpWithdraw 800; OpApplyInterest]
             (Savings (SavingsAccount.new "S1" "Alice" 1000 0.04 100)) in
  let shown := displayTransactionHistory a in
  List.length shown = 4%nat
  /\ exists type amount,
       last shown NoTransactionsFound = TransactionLine type amount (getBalance a).
Proof.
  cbv zeta.
  assert (H : reachable 1000
                (run [OpWithdraw 800; OpApplyInterest]
                   (Savings (SavingsAccount.new "S1" "Alice" 1000 0.04 100))))
    by (apply run_reachable, reach_new_savings).
  destruct (history_display_agrees 1000 _ H) as (_ & _ & Hshown).
  apply Hshown. discriminate.
Defined.

(** X13. After an accepted withdrawal from a current account whose fee is
    [>= 0], the account information carries the line
    "*** ACCOUNT OVERDRAWN ***" exactly when that withdrawal charged the
    overdraft fee.  The information of a savings account never carries the
    line, whatever its balance. *)
Theorem overdrawn_iff_fee_charged (c : CurrentAccount.t) (amount : float) :
  (0 <=? CurrentAccount.overdraftFee c) = true ->
  fst (fst (CurrentAccount.withdraw amount c)) = true ->
  (In AccountOverdrawn
      (CurrentAccount.displayAccountInfo (snd (fst (CurrentAccount.withdraw amount c))))
   <-> In (OverdraftFeeApplied (CurrentAccount.overdraftFee c))
          (snd (CurrentAccount.withdraw amount c)))
  /\ forall s, ~ In AccountOverdrawn (SavingsAccount.displayAccountInfo s).
Proof.
  intros Hf Hok. split.
  - revert Hok. unfold CurrentAccount.withdraw.
    destruct (amount <=? 0); [discriminate |].
    destruct (_ - amount <? - _); [discriminate |].
    cbn [CurrentAccount.balance CurrentAccount.on_base CurrentAccount.base
         Account.addTransaction Account.set_balance Account.balance].
    fold (CurrentAccount.balance c).
    destruct (CurrentAccount.balance c - amount <? 0) eqn:E; intros _;
      unfold CurrentAccount.displayAccountInfo;
      cbn [fst snd CurrentAccount.balance CurrentAccount.on_base CurrentAccount.base
           CurrentAccount.overdraftFee CurrentAccount.overdraftLimit
           Account.addTransaction Account.set_balance Account.balance
           Account.accountNumber Account.holderName];
      fold (CurrentAccount.balance c).
    + rewrite (sub_negative _ _ E Hf). split; intros _; [left; reflexivity |].
      apply in_or_app. right. left. reflexivity.
    + rewrite E. rewrite app_nil_r. split; intro Hin; cbn in Hin;
        repeat (destruct Hin as [Hin | Hin]; [discriminate |]); contradiction.
  - intros s Hin. cbn in Hin.
    repeat (destruct Hin as [Hin | Hin]; [discriminate |]). contradiction.
Qed.

Lemma overdrawn_iff_fee_charged_witness :
  let c := CurrentAccount.new "C1" "Bob" 0 500 25 in
  In AccountOverdrawn
     (CurrentAccount.displayAccountInfo (snd (fst (CurrentAccount.withdraw 300 c))))
  /\ forall s, ~ In AccountOverdrawn (SavingsAccount.displayAccountInfo s).
Proof.
  cbv zeta.
  destruct (overdrawn_iff_fee_charged (CurrentAccount.new "C1" "Bob" 0 500 25) 300)
    as [Hiff Hsavings]; [reflexivity | reflexivity |].
  split; [| exact Hsavings].
  apply Hiff. left. reflexivity.
Defined.

(** X14. The listing of all accounts says "No accounts found." for an empty
    bank; after an account is created it shows the accounts that were there
    before, in creation order, and then one line with the number, holder,
    type and initial balance of the new account. *)
Theorem listing_after_create (b : Bank.t) (accNum name : string) (init : float) :
  (Bank.accounts b = [] ->
   Bank.displayAllAccounts b = [AllAccountsHeader (Bank.bankName b); NoAccountsFound])
  /\ Bank.displayAllAccounts (fst (Bank.createSavingsAccount accNum name init b))
     = AllAccountsHeader (Bank.bankName b)
         :: map summary_line (Bank.accounts b)
         ++ [AccountSummary accNum name "Savings" init]
  /\ Bank.displayAllAccounts (fst (Bank.createCurrentAccount accNum name init b))
     = AllAccountsHeader (Bank.bankName b)
         :: map summary_line (Bank.accounts b)
         ++ [AccountSummary accNum name "Current" init].
Proof.
  split; [| split].
  - intro E. unfold Bank.displayAllAccounts. rewrite E. reflexivity.
  - unfold Bank.displayAllAccounts, Bank.createSavingsAccount. cbn [fst Bank.push_back
      Bank.accounts Bank.bankName].
    replace (AccountSummary accNum name "Savings" init)
      with (summary_line (Savings (SavingsAccount.new accNum name init
              SavingsAccount.default_intRate SavingsAccount.default_minBalance))).
    + destruct (Bank.accounts b); cbn [app map]; [reflexivity |].
      rewrite map_app. reflexivity.
    + unfold summary_line, getAccountNumber, getHolderName, getBalance,
        Account.getAccountNumber, Account.getHolderName, Account.getBalance.
      cbn [account_base SavingsAccount.new SavingsAccount.base getAccountType
           SavingsAccount.getAccountType].
      rewrite new_accountNumber, new_holderName, new_balance. reflexivity.
  - unfold Bank.displayAllAccounts, Bank.createCurrentAccount. cbn [fst Bank.push_back
      Bank.accounts Bank.bankName].
    replace (AccountSummary accNum name "Current" init)
      with (summary_line (Current (CurrentAccount.new accNum name init
              CurrentAccount.default_overdraftLim CurrentAccount.default_overdraftF))).
    + destruct (Bank.accounts b); cbn [app map]; [reflexivity |].
      rewrite map_app. reflexivity.
    + unfold summary_line, getAccountNumber, getHolderName, getBalance,
        Account.getAccountNumber, Account.getHolderName, Account.getBalance.
      cbn [account_base CurrentAccount.new CurrentAccount.base getAccountType
           CurrentAccount.getAccountType].
      rewrite new_accountNumber, new_holderName, new_balance. reflexivity.
Qed.


(** ** Calls through a pointer into the registry *)

Lemma length_assign_nth (p : nat) (obj : AccountObj) (accs : list AccountObj) :
  List.length (Bank.assign_nth p obj accs) = List.length accs.
Proof.
  revert p. induction accs as [| a accs IH]; intros [| p]; cbn; try reflexivity.
  f_equal. apply IH.
Qed.

Lemma nth_error_assign_nth_same (p : nat) (obj : AccountObj) (accs : list AccountObj) :
  (p < List.length accs)%nat -> nth_error (Bank.assign_nth p obj accs) p = Some obj.
Proof.
  revert p. induction accs as [| a accs IH]; intros [| p] H; cbn in *; try lia.
  - reflexivity.
  - apply IH. lia.
Qed.

Lemma nth_error_assign_nth_other (p q : nat) (obj : AccountObj) (accs : list AccountObj) :
  q <> p -> nth_error (Bank.assign_nth p obj accs) q = nth_error accs q.
Proof.
  revert p q. induction accs as [| a accs IH]; intros [| p] [| q] H; cbn;
    try reflexivity; try contradiction.
  apply IH. intro E. apply H. f_equal. exact E.
Qed.

Lemma Forall_assign_nth (P : AccountObj -> Prop) (p : nat) (obj : AccountObj)
    (accs : list AccountObj) :
  Forall P accs -> P obj -> Forall P (Bank.assign_nth p obj accs).
Proof.
  intros H Hobj. revert p. induction H as [| a accs Ha Haccs IH]; intros [| p]; cbn;
    constructor; auto.
Qed.

Lemma find_if_assign_nth (pr : AccountObj -> bool) (p : nat) (old obj : AccountObj)
    (accs : list AccountObj) :
  nth_error accs p = Some old -> pr obj = pr old ->
  find_if pr (Bank.assign_nth p obj accs) = find_if pr accs.
Proof.
  revert p. induction accs as [| a accs IH]; intros [| p] H Hpr; cbn in *;
    try discriminate.
  - injection H as ->. rewrite Hpr. reflexivity.
  - rewrite (IH p H Hpr). reflexivity.
Qed.

Lemma findAccount_assign (number : string) (p : nat) (old obj : AccountObj) (b : Bank.t) :
  Bank.deref p b = Some old -> getAccountNumber obj = getAccountNumber old ->
  Bank.findAccount number (Bank.assign p obj b) = Bank.findAccount number b.
Proof.
  intros H Hnum. unfold Bank.findAccount, Bank.assign. cbn [Bank.accounts].
  rewrite length_assign_nth.
  rewrite (find_if_assign_nth _ p old obj); [reflexivity | exact H |].
  rewrite Hnum. reflexivity.
Qed.

Lemma findAccount_deref (number : string) (b : Bank.t) (p : nat) :
  Bank.findAccount number b = Some p ->
  exists a, Bank.deref p b = Some a /\ getAccountNumber a = number.
Proof.
  intro H. apply findAccount_Some in H. destruct H as [-> Hlt].
  destruct (find_if_first _ _ Hlt) as (a & Ha & Hpa & _).
  exists a. split; [exact Ha | apply String.eqb_eq; exact Hpa].
Qed.

Lemma findAccount_not_shadowed (number : string) (b : Bank.t) (p : nat) (a : AccountObj) :
  Bank.deref p b = Some a -> shadowed p a b -> Bank.findAccount number b <> Some p.
Proof.
  intros Ha (q & a0 & Hq & Ha0 & Hnum) H.
  apply findAccount_Some in H. destruct H as [Hp Hlt]. rewrite Hp in Hlt.
  destruct (find_if_first _ _ Hlt) as (a1 & Ha1 & Hpa1 & Hbefore).
  rewrite <- Hp in Ha1, Hbefore. unfold Bank.deref in *.
  rewrite Ha in Ha1. injection Ha1 as <-.
  pose proof (Hbefore q a0 Hq Ha0) as Hfalse. cbn in Hfalse, Hpa1.
  rewrite Hnum, Hpa1 in Hfalse. discriminate.
Qed.

(** ** The turns of the menu loop, choice by choice *)

Lemma choice_cases (z : Z) :
  (z = 1 \/ z = 2 \/ z = 3 \/ z = 4 \/ z = 5 \/ z = 6 \/ z = 7 \/ z = 8 \/ z = 9
   \/ z = 10 \/ (z < 1 \/ 10 < z))%Z.
Proof. lia. Qed.

Lemma turn_other (i : BankingSystem.Input) (sys : BankingSystem.t) :
  (Int.value (BankingSystem.choice i) < 1 \/ 10 < Int.value (BankingSystem.choice i))%Z ->
  BankingSystem.turn i sys = (sys, [InvalidChoice], false).
Proof.
  unfold BankingSystem.turn. destruct (Int.value (BankingSystem.choice i)) as [| p | p]; intro H;
    try reflexivity.
  do 4 (try destruct p as [p | p |]); try reflexivity; exfalso; lia.
Qed.

(** Splits on the menu choice of the input [i] and reduces [turn] in each
    case; the last case is the default of the [switch]. *)
Ltac by_choice i :=
  let Hc := fresh "Hchoice" in
  destruct (choice_cases (Int.value (BankingSystem.choice i)))
    as [Hc|[Hc|[Hc|[Hc|[Hc|[Hc|[Hc|[Hc|[Hc|[Hc|Hc]]]]]]]]]];
  [ unfold BankingSystem.turn; rewrite Hc; cbv iota ..
  | rewrite (turn_other _ _ Hc) ].

Lemma with_account_missing (number : string) (sys : BankingSystem.t)
    (found : nat -> AccountObj -> BankingSystem.t * list Console) :
  Bank.findAccount number (BankingSystem.bank sys) = None ->
  BankingSystem.with_account number sys found
  = (sys, [Prompt "Enter account number: "; AccountNotFound]).
Proof. intro H. unfold BankingSystem.with_account. rewrite H. reflexivity. Qed.

Lemma with_account_found (number : string) (sys : BankingSystem.t)
    (found : nat -> AccountObj -> BankingSystem.t * list Console) (p : nat) :
  Bank.findAccount number (BankingSystem.bank sys) = Some p ->
  exists a, Bank.deref p (BankingSystem.bank sys) = Some a
            /\ getAccountNumber a = number
            /\ BankingSystem.with_account number sys found
               = (fst (found p a), Prompt "Enter account number: " :: snd (found p a)).
Proof.
  intro H. destruct (findAccount_deref _ _ _ H) as (a & Ha & Hnum).
  exists a. split; [exact Ha |]. split; [exact Hnum |].
  unfold BankingSystem.with_account. rewrite H, Ha.
  destruct (found p a); reflexivity.
Qed.

Lemma bank_policy_deposit (amount : float) (a : AccountObj) :
  bank_policy a -> bank_policy (fst (deposit amount a)).
Proof.
  destruct a as [s | c]; cbn [deposit];
    unfold SavingsAccount.deposit, CurrentAccount.deposit;
    destruct (amount <=? 0); intro H; exact H.
Qed.

Lemma bank_policy_withdraw (amount : float) (a : AccountObj) :
  bank_policy a -> bank_policy (snd (fst (withdraw amount a))).
Proof.
  destruct a as [s | c]; cbn [withdraw];
    unfold SavingsAccount.withdraw, CurrentAccount.withdraw;
    destruct (amount <=? 0); try (intro H; exact H);
    destruct (_ - amount <? _); try (intro H; exact H).
  match goal with |- context [if ?b then _ else _] => destruct b end; intro H; exact H.
Qed.

Lemma bank_account_interest_round (a : AccountObj) :
  bank_account a -> bank_account (interest_round a).
Proof.
  intros [Hp (init & Hr)]. destruct a as [s | c]; [| split; [exact Hp | eauto]].
  split; [exact Hp |]. exists init. apply reach_applyInterest. exact Hr.
Qed.

Lemma turn_keeps_bank_accounts (i : BankingSystem.Input) (sys : BankingSystem.t) :
  Forall bank_account (Bank.accounts (BankingSystem.bank sys)) ->
  Forall bank_account
    (Bank.accounts (BankingSystem.bank (fst (fst (BankingSystem.turn i sys))))).
Proof.
  intro H. by_choice i; cbn [fst]; try exact H.
  - cbn. apply Forall_app. split; [exact H |]. constructor; [| constructor].
    split; [split; reflexivity | eexists; apply reach_new_savings].
  - cbn. apply Forall_app. split; [exact H |]. constructor; [| constructor].
    split; [split; reflexivity | eexists; apply reach_new_current].
  - destruct (Bank.findAccount (BankingSystem.accNum i) (BankingSystem.bank sys))
      as [p |] eqn:E.
    + destruct (with_account_found _ sys
                  (fun acc obj =>
                     let '(obj', out) := deposit (BankingSystem.amount i) obj in
                     ({| BankingSystem.bank := Bank.assign acc obj' (BankingSystem.bank sys) |},
                      Prompt "Enter deposit amount: " :: map Said out)) p E)
        as (a & Ha & _ & ->).
      cbn [fst]. destruct (deposit (BankingSystem.amount i) a) as [a' out] eqn:Ed.
      cbn. apply Forall_assign_nth; [exact H |].
      pose proof (proj1 (Forall_forall _ _) H a (nth_error_In _ _ Ha)) as [Hp (init & Hr)].
      replace a' with (fst (deposit (BankingSystem.amount i) a)) by (rewrite Ed; reflexivity).
      split; [apply bank_policy_deposit; exact Hp |].
      exists init. apply reach_deposit. exact Hr.
    + rewrite with_account_missing by exact E. exact H.
  - destruct (Bank.findAccount (BankingSystem.accNum i) (BankingSystem.bank sys))
      as [p |] eqn:E.
    + destruct (with_account_found _ sys
                  (fun acc obj =>
                     let '(_, obj', out) := withdraw (BankingSystem.amount i) obj in
                     ({| BankingSystem.bank := Bank.assign acc obj' (BankingSystem.bank sys) |},
                      Prompt "Enter withdrawal amount: " :: map Said out)) p E)
        as (a & Ha & _ & ->).
      cbn [fst]. destruct (withdraw (BankingSystem.amount i) a) as [[ok a'] out] eqn:Ed.
      cbn. apply Forall_assign_nth; [exact H |].
      pose proof (proj1 (Forall_forall _ _) H a (nth_error_In _ _ Ha)) as [Hp (init & Hr)].
      replace a' with (snd (fst (withdraw (BankingSystem.amount i) a)))
        by (rewrite Ed; reflexivity).
      split; [apply bank_policy_withdraw; exact Hp |].
      exists init. apply reach_withdraw. exact Hr.
    + rewrite with_account_missing by exact E. exact H.
  - unfold BankingSystem.with_account.
    destruct (Bank.findAccount _ _); [destruct (Bank.deref _ _) |]; exact H.
  - unfold BankingSystem.with_account.
    destruct (Bank.findAccount _ _); [destruct (Bank.deref _ _) |]; exact H.
  - unfold BankingSystem.with_account.
    destruct (Bank.findAccount _ _); [destruct (Bank.deref _ _) |]; exact H.
  - unfold Bank.applyInterestToSavingsAccounts. rewrite applyInterest_loop_map. cbn.
    apply Forall_map. apply Forall_forall. intros a Ha.
    apply bank_account_interest_round.
    exact (proj1 (Forall_forall _ _) H a Ha).
Qed.

Lemma run_keeps_bank_accounts (inputs : list BankingSystem.Input) (sys : BankingSystem.t) :
  Forall bank_account (Bank.accounts (BankingSystem.bank sys)) ->
  Forall bank_account
    (Bank.accounts (BankingSystem.bank (fst (fst (BankingSystem.run inputs sys))))).
Proof.
  revert sys. induction inputs as [| i inputs IH]; intros sys H; [exact H |].
  cbn [BankingSystem.run].
  pose proof (turn_keeps_bank_accounts i sys H) as Hturn.
  destruct (BankingSystem.turn i sys) as [[sys' out] returned]. cbn [fst] in Hturn.
  destruct returned; [exact Hturn |].
  specialize (IH sys' Hturn).
  destruct (BankingSystem.run inputs sys') as [[sys'' out'] returned']. exact IH.
Qed.

(** ** Properties of the whole program *)

(** X15. Whatever turns the loop takes, every account the bank holds
    carries the default policy of its variant and is in a state reached from
    its construction by deposits, withdrawals and interest alone; in
    particular its balance is the [double] obtained from its initial
    balance by applying the changes its history records, one after the
    other. *)
Theorem bank_holds_reachable_accounts (inputs : list BankingSystem.Input) :
  Forall (fun a =>
            bank_policy a
            /\ exists init,
                 reachable init a
                 /\ getBalance a = replay init (history a))
    (Bank.accounts
       (BankingSystem.bank (fst (fst (BankingSystem.run inputs BankingSystem.new))))).
Proof.
  assert (H : Forall bank_account
                (Bank.accounts
                   (BankingSystem.bank
                      (fst (fst (BankingSystem.run inputs BankingSystem.new))))))
    by (apply run_keeps_bank_accounts; constructor).
  apply Forall_forall. intros a Ha.
  destruct (proj1 (Forall_forall _ _) H a Ha) as [Hp (init & Hr)].
  split; [exact Hp |]. exists init. split; [exact Hr |].
  destruct (reachable_consistent init a Hr) as [Htot _ _]. exact Htot.
Qed.

Lemma evolves_refl (a : AccountObj) : evolves a a.
Proof.
  repeat split. exists []. symmetry. apply app_nil_r.
Qed.

Lemma evolves_deposit (amount : float) (a : AccountObj) : evolves a (fst (deposit amount a)).
Proof.
  destruct a as [s | c]; cbn [deposit];
    unfold SavingsAccount.deposit, CurrentAccount.deposit;
    destruct (amount <=? 0); try apply evolves_refl;
    repeat split; eexists; reflexivity.
Qed.

Lemma evolves_withdraw (amount : float) (a : AccountObj) :
  evolves a (snd (fst (withdraw amount a))).
Proof.
  destruct a as [s | c]; cbn [withdraw];
    unfold SavingsAccount.withdraw, CurrentAccount.withdraw;
    destruct (amount <=? 0); try apply evolves_refl;
    destruct (_ - amount <? _); try apply evolves_refl;
    try match goal with |- context [if ?b then _ else _] => destruct b end; repeat split;
    first [ eexists; reflexivity
          | eexists; unfold history; cbn; rewrite <- app_assoc; reflexivity ].
Qed.

Lemma evolves_interest_round (a : AccountObj) : evolves a (interest_round a).
Proof.
  destruct a as [s | c]; [| apply evolves_refl].
  repeat split. eexists. reflexivity.
Qed.

(** X16. No turn of the menu loop removes, moves or renames an account:
    every account stays at its position with its number, holder, dynamic
    type and policy, its history only extended.  The registry grows by
    exactly one account on the choices 1 and 2 and keeps its size on every
    other choice. *)
Theorem turn_keeps_accounts (i : BankingSystem.Input) (sys : BankingSystem.t) :
  let b := BankingSystem.bank sys in
  let b' := BankingSystem.bank (fst (fst (BankingSystem.turn i sys))) in
  (forall p a, Bank.deref p b = Some a ->
     exists a', Bank.deref p b' = Some a' /\ evolves a a')
  /\ List.length (Bank.accounts b')
     = (if Z.eqb (Int.value (BankingSystem.choice i)) 1
           || Z.eqb (Int.value (BankingSystem.choice i)) 2
        then S (List.length (Bank.accounts b)) else List.length (Bank.accounts b))
  /\ Bank.bankName b' = Bank.bankName b.
Proof.
  cbv zeta.
  assert (Hsame : forall p a, Bank.deref p (BankingSystem.bank sys) = Some a ->
            exists a', Bank.deref p (BankingSystem.bank sys) = Some a' /\ evolves a a')
    by (intros p a Ha; exists a; split; [exact Ha | apply evolves_refl]).
  assert (Hassign : forall q old obj, Bank.deref q (BankingSystem.bank sys) = Some old ->
            evolves old obj ->
            forall p a, Bank.deref p (BankingSystem.bank sys) = Some a ->
            exists a', Bank.deref p (Bank.assign q obj (BankingSystem.bank sys)) = Some a'
                       /\ evolves a a').
  { intros q old obj Hold Hev p a Ha. unfold Bank.deref, Bank.assign in *. cbn [Bank.accounts].
    destruct (Nat.eq_dec p q) as [-> | Hne].
    - rewrite nth_error_assign_nth_same
        by (apply nth_error_Some; rewrite Ha; discriminate).
      rewrite Hold in Ha. injection Ha as <-. exists obj. split; [reflexivity | exact Hev].
    - rewrite nth_error_assign_nth_other by exact Hne.
      exists a. split; [exact Ha | apply evolves_refl]. }
  by_choice i; rewrite ?Hchoice; cbn [fst Z.eqb Pos.eqb orb];
    try (destruct (Z.eqb_spec (Int.value (BankingSystem.choice i)) 1) as [E1 | _]; [exfalso; lia |];
         destruct (Z.eqb_spec (Int.value (BankingSystem.choice i)) 2) as [E2 | _]; [exfalso; lia |];
         cbn [orb]);
    try (split; [exact Hsame | split; reflexivity]).
  - unfold Bank.createSavingsAccount, Bank.createCurrentAccount, Bank.deref.
    cbn [fst BankingSystem.bank Bank.push_back Bank.accounts Bank.bankName].
    split; [| split; [rewrite length_app; cbn; lia | reflexivity]].
    intros p a Ha. exists a. split; [| apply evolves_refl].
    rewrite nth_error_app1; [exact Ha |].
    apply nth_error_Some. rewrite Ha. discriminate.
  - unfold Bank.createSavingsAccount, Bank.createCurrentAccount, Bank.deref.
    cbn [fst BankingSystem.bank Bank.push_back Bank.accounts Bank.bankName].
    split; [| split; [rewrite length_app; cbn; lia | reflexivity]].
    intros p a Ha. exists a. split; [| apply evolves_refl].
    rewrite nth_error_app1; [exact Ha |].
    apply nth_error_Some. rewrite Ha. discriminate.
  - destruct (Bank.findAccount (BankingSystem.accNum i) (BankingSystem.bank sys))
      as [q |] eqn:E.
    + destruct (with_account_found _ sys
                  (fun acc obj =>
                     let '(obj', out) := deposit (BankingSystem.amount i) obj in
                     ({| BankingSystem.bank := Bank.assign acc obj' (BankingSystem.bank sys) |},
                      Prompt "Enter deposit amount: " :: map Said out)) q E)
        as (old & Hold & _ & ->).
      cbn [fst]. pose proof (evolves_deposit (BankingSystem.amount i) old) as Hev.
      destruct (deposit (BankingSystem.amount i) old) as [obj out]. cbn [fst] in *.
      cbn [BankingSystem.bank]. split; [exact (Hassign q old obj Hold Hev) |].
      split; [apply length_assign_nth | reflexivity].
    + rewrite with_account_missing by exact E. split; [exact Hsame | split; reflexivity].
  - destruct (Bank.findAccount (BankingSystem.accNum i) (BankingSystem.bank sys))
      as [q |] eqn:E.
    + destruct (with_account_found _ sys
                  (fun acc obj =>
                     let '(_, obj', out) := withdraw (BankingSystem.amount i) obj in
                     ({| BankingSystem.bank := Bank.assign acc obj' (BankingSystem.bank sys) |},
                      Prompt "Enter withdrawal amount: " :: map Said out)) q E)
        as (old & Hold & _ & ->).
      cbn [fst]. pose proof (evolves_withdraw (BankingSystem.amount i) old) as Hev.
      destruct (withdraw (BankingSystem.amount i) old) as [[ok obj] out]. cbn [fst snd] in *.
      cbn [BankingSystem.bank]. split; [exact (Hassign q old obj Hold Hev) |].
      split; [apply length_assign_nth | reflexivity].
    + rewrite with_account_missing by exact E. split; [exact Hsame | split; reflexivity].
  - unfold BankingSystem.with_account.
    destruct (Bank.findAccount _ _); [destruct (Bank.deref _ _) |];
      (split; [exact Hsame | split; reflexivity]).
  - unfold BankingSystem.with_account.
    destruct (Bank.findAccount _ _); [destruct (Bank.deref _ _) |];
      (split; [exact Hsame | split; reflexivity]).
  - unfold BankingSystem.with_account.
    destruct (Bank.findAccount _ _); [destruct (Bank.deref _ _) |];
      (split; [exact Hsame | split; reflexivity]).
  - unfold Bank.applyInterestToSavingsAccounts. rewrite applyInterest_loop_map. cbn.
    split; [| split; [apply length_map | reflexivity]].
    intros p a Ha. unfold Bank.deref in *. cbn [Bank.accounts].
    rewrite nth_error_map, Ha. cbn. eexists. split; [reflexivity |].
    apply evolves_interest_round.
Qed.

(** X17. A deposit, withdrawal, balance, details or history request
    (choices 3 to 7) for a number no account has changes nothing, asks for
    no further input, reports "Account not found!" and lets the loop go
    on. *)
Theorem turn_unknown_account (i : BankingSystem.Input) (sys : BankingSystem.t) :
  (3 <= Int.value (BankingSystem.choice i) <= 7)%Z ->
  Bank.findAccount (BankingSystem.accNum i) (BankingSystem.bank sys) = None ->
  BankingSystem.turn i sys
  = (sys, [Prompt "Enter account number: "; AccountNotFound], false).
Proof.
  intros Hrange Hnone. by_choice i; try (exfalso; lia);
    rewrite with_account_missing by exact Hnone; reflexivity.
Qed.

Lemma turn_unknown_account_witness :
  BankingSystem.turn
    {| BankingSystem.choice := Int.make 3 eq_refl; BankingSystem.accNum := "A1";
       BankingSystem.holderName := ""; BankingSystem.amount := 50 |}
    BankingSystem.new
  = (BankingSystem.new, [Prompt "Enter account number: "; AccountNotFound], false).
Proof.
  apply turn_unknown_account; [cbn; lia | reflexivity].
Defined.

(** X18. A deposit or withdrawal request (choice 3 or 4) changes no account
    other than the one [findAccount] returns for the number typed.  An
    account stored after another account with the same number is therefore
    out of reach of every deposit and withdrawal request, whatever number is
    typed. *)
Theorem turn_spares_other_accounts (i : BankingSystem.Input) (sys : BankingSystem.t)
    (p : nat) (a : AccountObj) :
  (Int.value (BankingSystem.choice i) = 3 \/ Int.value (BankingSystem.choice i) = 4)%Z ->
  Bank.deref p (BankingSystem.bank sys) = Some a ->
  Bank.findAccount (BankingSystem.accNum i) (BankingSystem.bank sys) <> Some p
  \/ shadowed p a (BankingSystem.bank sys) ->
  Bank.deref p (BankingSystem.bank (fst (fst (BankingSystem.turn i sys)))) = Some a.
Proof.
  intros Hc Ha Hother.
  assert (Hne : Bank.findAccount (BankingSystem.accNum i) (BankingSystem.bank sys) <> Some p).
  { destruct Hother as [H | H]; [exact H |].
    apply (findAccount_not_shadowed _ _ _ a Ha H). }
  clear Hother. by_choice i; try (exfalso; lia); cbn [fst].
  - destruct (Bank.findAccount (BankingSystem.accNum i) (BankingSystem.bank sys))
      as [q |] eqn:E.
    + destruct (with_account_found _ sys
                  (fun acc obj =>
                     let '(obj', out) := deposit (BankingSystem.amount i) obj in
                     ({| BankingSystem.bank := Bank.assign acc obj' (BankingSystem.bank sys) |},
                      Prompt "Enter deposit amount: " :: map Said out)) q E)
        as (old & _ & _ & ->).
      cbn [fst]. destruct (deposit (BankingSystem.amount i) old) as [obj out].
      cbn [fst BankingSystem.bank]. unfold Bank.deref, Bank.assign in *.
      cbn [Bank.accounts]. rewrite nth_error_assign_nth_other; [exact Ha |].
      intros ->. apply Hne. reflexivity.
    + rewrite with_account_missing by exact E. exact Ha.
  - destruct (Bank.findAccount (BankingSystem.accNum i) (BankingSystem.bank sys))
      as [q |] eqn:E.
    + destruct (with_account_found _ sys
                  (fun acc obj =>
                     let '(_, obj', out) := withdraw (BankingSystem.amount i) obj in
                     ({| BankingSystem.bank := Bank.assign acc obj' (BankingSystem.bank sys) |},
                      Prompt "Enter withdrawal amount: " :: map Said out)) q E)
        as (old & _ & _ & ->).
      cbn [fst]. destruct (withdraw (BankingSystem.amount i) old) as [[ok obj] out].
      cbn [fst BankingSystem.bank]. unfold Bank.deref, Bank.assign in *.
      cbn [Bank.accounts]. rewrite nth_error_assign_nth_other; [exact Ha |].
      intros ->. apply Hne. reflexivity.
    + rewrite with_account_missing by exact E. exact Ha.
Qed.

Lemma turn_spares_other_accounts_witness :
  let b := fst (Bank.createCurrentAccount "A1" "Bob" 50
                  (fst (Bank.createSavingsAccount "A1" "Alice" 1000
                          (Bank.new "ABC Bank")))) in
  let second := Current (CurrentAccount.new "A1" "Bob" 50 1000 25) in
  let i := {| BankingSystem.choice := Int.make 3 eq_refl; BankingSystem.accNum := "A1";
              BankingSystem.holderName := ""; BankingSystem.amount := 70 |} in
  Bank.deref 1 b = Some second
  /\ Bank.deref 1
       (BankingSystem.bank (fst (fst (BankingSystem.turn i (BankingSystem.make b)))))
     = Some second.
Proof.
  cbv zeta. split; [reflexivity |].
  apply turn_spares_other_accounts; [left; reflexivity | reflexivity |].
  right. exists 0%nat. eexists. split; [lia |]. split; reflexivity.
Defined.




(** On the stdin [2147483648] then [10]: the first read stores [INT_MAX]
    and fails, the [10] is never read, and the loop answers "Invalid
    choice!" turn after turn. *)
Example stdin_choice_beyond_int (n : nat) :
  let left := {| BankingSystem.choice := fst (Int.extract 2147483648);
                 BankingSystem.accNum := ""; BankingSystem.holderName := "";
                 BankingSystem.amount := 0 |} in
  Int.extract 2147483648 = (Int.highest, false)
  /\ BankingSystem.turn left BankingSystem.new
     = (BankingSystem.new, [InvalidChoice], false)
  /\ snd (BankingSystem.run (repeat left n) BankingSystem.new) = false.
Proof.
  cbv zeta. split; [reflexivity |]. split; [reflexivity |].
  induction n as [| n IH]; [reflexivity |].
  cbn [repeat BankingSystem.run].
  change (BankingSystem.turn _ BankingSystem.new)
    with (BankingSystem.new, [InvalidChoice], false).
  cbv iota beta. destruct (BankingSystem.run _ BankingSystem.new) as [[sys out] r].
  exact IH.
Qed.

Lemma getBalance_deposit (amount : float) (a : AccountObj) :
  (amount <=? 0) = false -> getBalance (fst (deposit amount a)) = getBalance a + amount.
Proof.
  intro H. destruct a as [s | c]; cbn [deposit];
    unfold SavingsAccount.deposit, CurrentAccount.deposit; rewrite H; reflexivity.
Qed.

(** X20. A deposit request with an amount that is not [<= 0] for a number
    that is found, followed by a balance request for the same number, shows
    the [double] sum of the balance the account had before and the
    amount. *)
Theorem deposit_then_balance_query (i j : BankingSystem.Input) (sys : BankingSystem.t)
    (p : nat) (a : AccountObj) :
  Int.value (BankingSystem.choice i) = 3%Z -> Int.value (BankingSystem.choice j) = 5%Z ->
  BankingSystem.accNum j = BankingSystem.accNum i ->
  (BankingSystem.amount i <=? 0) = false ->
  Bank.findAccount (BankingSystem.accNum i) (BankingSystem.bank sys) = Some p ->
  Bank.deref p (BankingSystem.bank sys) = Some a ->
  snd (fst (BankingSystem.turn j (fst (fst (BankingSystem.turn i sys)))))
  = [Prompt "Enter account number: ";
     CurrentBalanceIs (getBalance a + BankingSystem.amount i)].
Proof.
  intros Hi Hj Hnum Hpos Hfind Ha.
  unfold BankingSystem.turn. rewrite Hi, Hj, Hnum. cbv iota. cbn [fst snd].
  destruct (with_account_found _ sys
              (fun acc obj =>
                 let '(obj', out) := deposit (BankingSystem.amount i) obj in
                 ({| BankingSystem.bank := Bank.assign acc obj' (BankingSystem.bank sys) |},
                  Prompt "Enter deposit amount: " :: map Said out)) p Hfind)
    as (a0 & Ha0 & _ & ->).
  rewrite Ha in Ha0. injection Ha0 as <-. cbn [fst].
  pose proof (getBalance_deposit (BankingSystem.amount i) a Hpos) as Hbal.
  pose proof (evolves_deposit (BankingSystem.amount i) a) as (Hsame & _).
  destruct (deposit (BankingSystem.amount i) a) as [obj out]. cbn [fst] in *.
  unfold BankingSystem.with_account. cbn [BankingSystem.bank].
  rewrite (findAccount_assign _ p a obj _ Ha Hsame), Hfind.
  unfold Bank.deref, Bank.assign. cbn [Bank.accounts].
  rewrite nth_error_assign_nth_same
    by (apply nth_error_Some; unfold Bank.deref in Ha; rewrite Ha; discriminate).
  cbn. rewrite Hbal. reflexivity.
Qed.

Lemma deposit_then_balance_query_witness :
  let sys := BankingSystem.make
               (fst (Bank.createSavingsAccount "A1" "Alice" 1000 (Bank.new "ABC Bank"))) in
  let i := {| BankingSystem.choice := Int.make 3 eq_refl; BankingSystem.accNum := "A1";
              BankingSystem.holderName := ""; BankingSystem.amount := 70 |} in
  let j := {| BankingSystem.choice := Int.make 5 eq_refl; BankingSystem.accNum := "A1";
              BankingSystem.holderName := ""; BankingSystem.amount := 0 |} in
  snd (fst (BankingSystem.turn j (fst (fst (BankingSystem.turn i sys)))))
  = [Prompt "Enter account number: "; CurrentBalanceIs (1000 + 70)].
Proof.
  cbv zeta.
  exact (deposit_then_balance_query
           {| BankingSystem.choice := Int.make 3 eq_refl; BankingSystem.accNum := "A1";
              BankingSystem.holderName := ""; BankingSystem.amount := 70 |}
           {| BankingSystem.choice := Int.make 5 eq_refl; BankingSystem.accNum := "A1";
              BankingSystem.holderName := ""; BankingSystem.amount := 0 |}
           (BankingSystem.make
              (fst (Bank.createSavingsAccount "A1" "Alice" 1000 (Bank.new "ABC Bank"))))
           0%nat (Savings (SavingsAccount.new "A1" "Alice" 1000 0.04 100))
           eq_refl eq_refl eq_refl eq_refl eq_refl eq_refl).
Defined.
